(** * python-gerrit-api: the reviewer subsystem and the account name setter

    A shallow embedding of [gerrit/changes/reviewers.py] and of
    [GerritAccount.set_name] from [gerrit/accounts/account.py].

    Python values are an inductive type of JSON-shaped data, exceptions are
    an inductive type, and every method is a function in a small state and
    error monad: the state is the receiver object ([self]) together with the
    world outside the process (the remote Gerrit server, the list of HTTP
    exchanges made so far, and the error log). *)

From Stdlib Require Import ZArith String Ascii List DecimalString.
From stdpp Require Import base gmap strings list.

Local Open Scope Z_scope.
Local Open Scope string_scope.
Local Open Scope list_scope.

(** ** Python values *)

(** The values that travel through this layer are decoded JSON bodies and the
    identifiers callers pass in.  JSON numbers are taken to be integers (every
    identifier Gerrit hands out is one); a dict keeps its entries in insertion
    order, as Python does, and a lookup returns the first entry with the key. *)
#[warnings="-register-all"]
Inductive pyval : Type :=
| PNone
| PBool (b : bool)
| PInt (z : Z)
| PStr (s : string)
| PList (items : list pyval)
| PDict (entries : list (string * pyval)).

(** [x is None] *)
Definition is_None (v : pyval) : bool :=
  match v with PNone => true | _ => false end.

(** *** [str()] and [repr()]

    An f-string field [{x}] and the [%s] conversion both produce [str(x)].
    Strings are byte strings holding UTF-8; bytes above 127 belong to
    characters that [repr] prints as they are. *)

Definition quote_single : ascii := ascii_of_nat 39.
Definition quote_double : ascii := ascii_of_nat 34.
Definition backslash : ascii := ascii_of_nat 92.

Fixpoint string_mem (c : ascii) (s : string) : bool :=
  match s with
  | EmptyString => false
  | String d rest => if Ascii.eqb c d then true else string_mem c rest
  end.

Definition hex_digit (n : nat) : ascii :=
  if Nat.ltb n 10 then ascii_of_nat (48 + n) else ascii_of_nat (87 + n).

Definition repr_char (q : ascii) (c : ascii) : string :=
  let n := nat_of_ascii c in
  if Ascii.eqb c backslash then String backslash (String backslash EmptyString)
  else if Ascii.eqb c q then String backslash (String q EmptyString)
  else if Nat.eqb n 10 then String backslash "n"
  else if Nat.eqb n 13 then String backslash "r"
  else if Nat.eqb n 9 then String backslash "t"
  else if orb (Nat.ltb n 32) (Nat.eqb n 127)
       then String backslash
              (String "x" (String (hex_digit (Nat.div n 16))
                                  (String (hex_digit (Nat.modulo n 16)) EmptyString)))
  else String c EmptyString.

Fixpoint repr_chars (q : ascii) (s : string) : string :=
  match s with
  | EmptyString => EmptyString
  | String c rest => repr_char q c +:+ repr_chars q rest
  end.

(** [repr] of a [str]: single quotes, unless the text has a single quote and
    no double quote. *)
Definition repr_string (s : string) : string :=
  let q := if andb (string_mem quote_single s) (negb (string_mem quote_double s))
           then quote_double else quote_single in
  String q (repr_chars q s +:+ String q EmptyString).

Definition str_int (z : Z) : string := NilZero.string_of_int (Z.to_int z).

Definition join_comma (parts : list string) : string :=
  match parts with
  | [] => EmptyString
  | p :: ps => fold_left (fun acc x => acc +:+ ", " +:+ x) ps p
  end.

Fixpoint py_repr (v : pyval) : string :=
  match v with
  | PNone => "None"
  | PBool true => "True"
  | PBool false => "False"
  | PInt z => str_int z
  | PStr s => repr_string s
  | PList items =>
      "[" +:+ join_comma (List.map py_repr items) +:+ "]"
  | PDict entries =>
      "{" +:+ join_comma
                (List.map (fun kv => repr_string (fst kv) +:+ ": " +:+ py_repr (snd kv))
                          entries) +:+ "}"
  end.

(** [str(v)]: a [str] is itself, everything else prints as its [repr]. *)
Definition py_str (v : pyval) : string :=
  match v with
  | PStr s => s
  | _ => py_repr v
  end.

(** ** Exceptions and results *)

(** The exception classes this layer raises, catches or lets through.
    [HTTPError] is [requests.exceptions.HTTPError] with the status code of its
    response; [RequestException] stands for every other failure of the
    transport (a refused connection, a timeout), which no handler here
    catches.  [GerritAPIException] is raised [from] the error it wraps, kept
    as its cause. *)
Inductive exn : Type :=
| HTTPError (status_code : Z)
| RequestException (kind : string)
| ReviewerNotFoundError (message : string)
| ReviewerAlreadyExistsError (message : string)
| GerritAPIException (cause : exn)
| IndexError
| KeyError
| TypeError
| AttributeError.

Inductive result (A : Type) : Type :=
| Ok (value : A)
| Raise (error : exn).

Arguments Ok {A} value.
Arguments Raise {A} error.

(** *** Subscripting and [.get] *)

(** The bytes that continue a UTF-8 character. *)
Fixpoint continuation (s : string) : string :=
  match s with
  | String c rest =>
      if andb (Nat.leb 128 (nat_of_ascii c)) (Nat.ltb (nat_of_ascii c) 192)
      then String c (continuation rest) else EmptyString
  | EmptyString => EmptyString
  end.

(** [v[0]] *)
Definition py_getitem_0 (v : pyval) : result pyval :=
  match v with
  | PList (first :: _) => Ok first
  | PList [] => Raise IndexError
  | PStr (String c rest) => Ok (PStr (String c (continuation rest)))
  | PStr EmptyString => Raise IndexError
  | PDict _ => Raise KeyError
  | PNone | PBool _ | PInt _ => Raise TypeError
  end.

Fixpoint assoc (key : string) (entries : list (string * pyval)) : option pyval :=
  match entries with
  | [] => None
  | (k, v) :: rest => if String.eqb k key then Some v else assoc key rest
  end.

(** [v.get(key)]: only a dict has the method; a missing key gives [None]. *)
Definition py_get (v : pyval) (key : string) : result pyval :=
  match v with
  | PDict entries =>
      Ok (match assoc key entries with Some x => x | None => PNone end)
  | _ => Raise AttributeError
  end.

(** ** The wire *)

Inductive request : Type :=
| GET (path : string)
| POST (path : string) (json : pyval) (headers : pyval)
| PUT (url : string) (json : pyval) (headers : pyval)
| DELETE (path : string).

(** A [requests.Response] as the account module sees it, before decoding. *)
Record Response : Type := { status : Z; content : string }.

(** One request and what came back: through [gerrit.get], [gerrit.post] and
    [gerrit.delete] the decoded body or the error raised; through
    [gerrit.requester] the raw response. *)
Inductive exchange : Type :=
| Call (sent : request) (answer : result pyval)
| RawCall (sent : request) (answer : result Response).

Definition sent_of (x : exchange) : request :=
  match x with Call r _ => r | RawCall r _ => r end.

Definition path_of (r : request) : string :=
  match r with
  | GET p => p
  | POST p _ _ => p
  | PUT u _ _ => u
  | DELETE p => p
  end.

Definition is_GET (r : request) : bool :=
  match r with GET _ => true | _ => false end.

(** A request that asks the server to change something. *)
Definition mutating (r : request) : bool := negb (is_GET r).

(** What the transport gets for a request: a body (a 2xx response), an HTTP
    error status, or no response at all.  It raises [HTTPError] for the
    second and some other [requests] exception for the third, and nothing
    else. *)
Inductive reply (A : Type) : Type :=
| Replied (body : A)
| Failed (status_code : Z)
| Unreachable (kind : string).

Arguments Replied {A} body.
Arguments Failed {A} status_code.
Arguments Unreachable {A} kind.

Definition raise_for_status {A} (r : reply A) : result A :=
  match r with
  | Replied body => Ok body
  | Failed status_code => Raise (HTTPError status_code)
  | Unreachable kind => Raise (RequestException kind)
  end.

(** ** The world and the method monad *)

Section World.
Context {server : Type}.

(** What lies outside the process: the state of the remote Gerrit, the
    exchanges made so far (oldest first) and the lines logged at error
    level. *)
Record world : Type := { srv : server; wire : list exchange; errlog : list string }.

(** A method body: it may read and assign attributes of [self], talk to
    the world, and ends by returning or raising.  What it did before
    raising stays done. *)
Definition M (S A : Type) : Type := S -> world -> result A * S * world.

Definition ret {S A} (a : A) : M S A := fun self w => (Ok a, self, w).

Definition raise {S A} (e : exn) : M S A := fun self w => (Raise e, self, w).

Definition bind {S A B} (m : M S A) (k : A -> M S B) : M S B :=
  fun self w =>
    match m self w with
    | (Ok a, self', w') => k a self' w'
    | (Raise e, self', w') => (Raise e, self', w')
    end.

Definition lift {S A} (r : result A) : M S A := fun self w => (r, self, w).

Definition get_self {S} : M S S := fun self w => (Ok self, self, w).

(** [try: body / except <classes>: handler]: [handler e] is [None] when no
    [except] clause matches [e]. *)
Definition try_except {S A} (body : M S A) (handler : exn -> option (M S A)) : M S A :=
  fun self w =>
    match body self w with
    | (Ok a, self', w') => (Ok a, self', w')
    | (Raise e, self', w') =>
        match handler e with
        | Some h => h self' w'
        | None => (Raise e, self', w')
        end
    end.

(** [logger.error(message)] *)
Definition logger_error {S} (message : string) : M S unit :=
  fun self w =>
    (Ok tt, self, {| srv := srv w; wire := wire w; errlog := errlog w ++ [message] |}).

(** Modelled from the spec: the transport capability [self.gerrit], the
    client object of [gerrit/__init__.py], which is not among the sources.
    By the collaborator contract [get(path)], [post(path, json, headers)]
    and [delete(path)] each make one HTTP request and return the decoded
    body or raise; [default_headers] is an attribute of the client.  A GET
    is answered from the server's state and leaves it as it is; POST, PUT
    and DELETE may change it, also when they fail.  [get_endpoint_url],
    [requester.put] and [decode_response] are what [account.py] calls. *)
Record GerritClient : Type := {
  default_headers : pyval;
  http_get : string -> server -> reply pyval;
  http_post : string -> pyval -> pyval -> server -> reply pyval * server;
  http_delete : string -> server -> reply pyval * server;
  get_endpoint_url : string -> string;
  http_put : string -> pyval -> pyval -> server -> result Response * server;
  decode_response : Response -> result pyval
}.

Definition record_exchange (x : exchange) (s : server) (w : world) : world :=
  {| srv := s; wire := wire w ++ [x]; errlog := errlog w |}.

(** [gerrit.get(path)] *)
Definition gerrit_get {S} (g : GerritClient) (path : string) : M S pyval :=
  fun self w =>
    let r := raise_for_status (http_get g path (srv w)) in
    (r, self, record_exchange (Call (GET path) r) (srv w) w).

(** [gerrit.post(path, json=..., headers=...)] *)
Definition gerrit_post {S} (g : GerritClient) (path : string) (json headers : pyval)
  : M S pyval :=
  fun self w =>
    let '(r, s) := http_post g path json headers (srv w) in
    (raise_for_status r, self,
     record_exchange (Call (POST path json headers) (raise_for_status r)) s w).

(** [gerrit.delete(path)] *)
Definition gerrit_delete {S} (g : GerritClient) (path : string) : M S pyval :=
  fun self w =>
    let '(r, s) := http_delete g path (srv w) in
    (raise_for_status r, self,
     record_exchange (Call (DELETE path) (raise_for_status r)) s w).

(** [gerrit.requester.put(url, json=..., headers=...)] *)
Definition requester_put {S} (g : GerritClient) (url : string) (json headers : pyval)
  : M S Response :=
  fun self w =>
    let '(r, s) := http_put g url json headers (srv w) in
    (r, self, record_exchange (RawCall (PUT url json headers) r) s w).

(** Running a constructor: [__init__] works on the new object, and the
    caller gets the object once it has returned. *)
Definition construct {S T} (blank : T) (init : M T unit) : M S T :=
  fun self w =>
    match init blank w with
    | (Ok _, obj, w') => (Ok obj, self, w')
    | (Raise e, _, w') => (Raise e, self, w')
    end.
End World.

Arguments world server : clear implicits.
Arguments M server S A : clear implicits.
Arguments GerritClient server : clear implicits.

Declare Scope py_scope.
Delimit Scope py_scope with py.
Notation "x <- m ;; k" := (bind m (fun x => k))
  (at level 100, m at next level, right associativity) : py_scope.
Notation "m ;;; k" := (bind m (fun _ => k))
  (at level 100, right associativity) : py_scope.
Local Open Scope py_scope.

(** ** [gerrit/changes/reviewers.py] *)

(** *** [class GerritChangeReviewer(GerritBase)] *)
Module GerritChangeReviewer.
Section Methods.
Context {server : Type}.

Record t : Type := {
  account : pyval;
  change : pyval;
  gerrit : GerritClient server;
  endpoint : string
}.

(** Modelled from the spec: [GerritBase.__init__] of
    [gerrit/utils/gerritbase.py], which is not among the sources.  The
    spec gives the entity no attribute besides the account, the change
    and the transport, and gives a lookup one HTTP call: the base
    initialiser assigns nothing and makes no request. *)
Definition GerritBase__init__ : M server t unit := ret tt.

(** [GerritChangeReviewer(account=..., change=..., gerrit=...)]: the four
    assignments of [__init__], then the base initialiser. *)
Definition __init__ {S} (account change : pyval) (gerrit : GerritClient server)
  : M server S t :=
  construct
    {| account := account;
       change := change;
       gerrit := gerrit;
       endpoint := "/changes/" +:+ py_str change +:+ "/reviewers/" +:+ py_str account |}
    GerritBase__init__.

(** [def delete(self, input_=None)] *)
Definition delete (input_ : pyval) : M server t pyval :=
  self <- get_self ;;
  if is_None input_ then
    gerrit_delete (gerrit self) (endpoint self) ;;;
    ret PNone
  else
    gerrit_post (gerrit self) (endpoint self +:+ "/delete") input_
                (default_headers (gerrit self)) ;;;
    ret PNone.

(** [def list_votes(self)] *)
Definition list_votes : M server t pyval :=
  self <- get_self ;;
  gerrit_get (gerrit self) (endpoint self +:+ "/votes/").

(** [def delete_vote(self, label, input_=None)] *)
Definition delete_vote (label : pyval) (input_ : pyval) : M server t pyval :=
  self <- get_self ;;
  let endpoint := endpoint self +:+ "/votes/" +:+ py_str label in
  if is_None input_ then
    gerrit_delete (gerrit self) endpoint ;;;
    ret PNone
  else
    gerrit_post (gerrit self) (endpoint +:+ "/delete") input_
                (default_headers (gerrit self)) ;;;
    ret PNone.
End Methods.
Arguments t server : clear implicits.
End GerritChangeReviewer.

(** *** [class GerritChangeReviewers] *)
Module GerritChangeReviewers.
Section Methods.
Context {server : Type}.

Record t : Type := {
  change : pyval;
  gerrit : GerritClient server;
  endpoint : string
}.

(** [GerritChangeReviewers(change, gerrit)] *)
Definition __init__ (change : pyval) (gerrit : GerritClient server) : t :=
  {| change := change;
     gerrit := gerrit;
     endpoint := "/changes/" +:+ py_str change +:+ "/reviewers" |}.

(** [def list(self)] *)
Definition list_ : M server t pyval :=
  self <- get_self ;;
  result <- gerrit_get (gerrit self) (endpoint self +:+ "/") ;;
  ret result.

(** [def get(self, account)].  The [try] block rebinds [account] to the
    numeric id, but only after [gerrit.get] has returned; the handler
    catches [HTTPError] alone, which only [gerrit.get] raises, so the
    message is built from the [account] the caller passed. *)
Definition get (account : pyval) : M server t (GerritChangeReviewer.t server) :=
  try_except
    (self <- get_self ;;
     result <- gerrit_get (gerrit self) (endpoint self +:+ "/" +:+ py_str account) ;;
     first <- lift (py_getitem_0 result) ;;
     account <- lift (py_get first "_account_id") ;;
     GerritChangeReviewer.__init__ account (change self) (gerrit self))
    (fun error =>
       match error with
       | HTTPError status_code =>
           Some (if orb (Z.eqb status_code 404) (Z.eqb status_code 400) then
                   let message := "Reviewer " +:+ py_str account +:+ " does not exist" in
                   logger_error message ;;;
                   raise (ReviewerNotFoundError message)
                 else
                   raise (GerritAPIException error))
       | _ => None
       end).

(** [def add(self, input_)] *)
Definition add (input_ : pyval) : M server t (GerritChangeReviewer.t server) :=
  reviewer <- lift (py_get input_ "reviewer") ;;
  try_except
    (get reviewer ;;;
     let message := "Reviewer " +:+ py_str reviewer +:+ " already exists" in
     logger_error message ;;;
     raise (ReviewerAlreadyExistsError message))
    (fun error =>
       match error with
       | ReviewerNotFoundError _ =>
           Some (self <- get_self ;;
                 gerrit_post (gerrit self) (endpoint self) input_
                             (default_headers (gerrit self)) ;;;
                 get reviewer)
       | _ => None
       end).
End Methods.
Arguments t server : clear implicits.
End GerritChangeReviewers.

(** ** [gerrit/accounts/account.py] *)

(** *** [class GerritAccount(BaseModel)] *)
Module GerritAccount.
Section Methods.
Context {server : Type}.

(** Modelled from the spec: the model object of [BaseModel]
    ([gerrit/utils/models.py], which is not among the sources).  The spec
    has a method mutate a local model attribute in place; the object is a
    plain Python object, its attributes ([username], [registered_on],
    [_account_id], [name], [email], ...) a dictionary from names to values,
    where reading a name that is not there raises [AttributeError].  The
    [gerrit] attribute holds the client and is a field of its own. *)
Record t : Type := {
  attrs : gmap string pyval;
  gerrit : GerritClient server
}.

(** [self.<name>] *)
Definition getattr (name : string) : M server t pyval :=
  fun self w =>
    match attrs self !! name with
    | Some v => (Ok v, self, w)
    | None => (Raise AttributeError, self, w)
    end.

(** [self.<name> = value] *)
Definition setattr (name : string) (value : pyval) : M server t unit :=
  fun self w =>
    (Ok tt, {| attrs := <[name := value]> (attrs self); gerrit := gerrit self |}, w).

(** The decorator [check] comes from [gerrit/utils/common.py], which is
    not among the sources.  It is a parameter: it looks at the argument
    and either raises or lets the decorated method run once and hands
    its result on. *)
Variable check : pyval -> option exn.

Definition checked {A} (input_ : pyval) (body : M server t A) : M server t A :=
  match check input_ with
  | Some e => raise e
  | None => body
  end.

(** [@check def set_name(self, input_: dict)] *)
Definition set_name (input_ : pyval) : M server t pyval :=
  checked input_
    (username <- getattr "username" ;;
     let endpoint := "/accounts/" +:+ py_str username +:+ "/name" in
     self <- get_self ;;
     let base_url := get_endpoint_url (gerrit self) endpoint in
     response <- requester_put (gerrit self) base_url input_
                               (default_headers (gerrit self)) ;;
     result <- lift (decode_response (gerrit self) response) ;;
     setattr "name" result ;;;
     ret result).
End Methods.
Arguments t server : clear implicits.
End GerritAccount.

(** *** Further methods of [GerritAccount] *)

Section Requester.
Context {server : Type}.

(** Modelled from the spec: the DELETE verb of [self.gerrit.requester] and
    the status check of the response it returns, neither among the
    sources.  The requester performs the request against the URL and hands
    back the response as it came (or raises when there is none);
    [response.raise_for_status()] raises for an error status and returns
    otherwise. *)
Record Requester : Type := {
  http_delete_raw : string -> server -> result Response * server;
  response_raise_for_status : Response -> result unit
}.

(** [gerrit.requester.delete(url)] *)
Definition requester_delete {S} (rq : Requester) (url : string) : M server S Response :=
  fun self w =>
    let '(r, s) := http_delete_raw rq url (srv w) in
    (r, self, record_exchange (RawCall (DELETE url) r) s w).
End Requester.

Arguments Requester server : clear implicits.

Module GerritAccountMethods.
Section Methods.
Context {server : Type}.
Import GerritAccount.

Variable check : pyval -> option exn.
Variable rq : Requester server.

(** [def delete_name(self)] *)
Definition delete_name : M server (t server) pyval :=
  username <- getattr "username" ;;
  let endpoint := "/accounts/" +:+ py_str username +:+ "/name" in
  self <- get_self ;;
  response <- requester_delete rq (get_endpoint_url (gerrit self) endpoint) ;;
  lift (response_raise_for_status rq response) ;;;
  setattr "name" PNone ;;;
  ret PNone.

(** [@check def set_username(self, input_: dict)] *)
Definition set_username (input_ : pyval) : M server (t server) pyval :=
  checked check input_
    (username <- getattr "username" ;;
     let endpoint := "/accounts/" +:+ py_str username +:+ "/username" in
     self <- get_self ;;
     let base_url := get_endpoint_url (gerrit self) endpoint in
     response <- requester_put (gerrit self) base_url input_
                               (default_headers (gerrit self)) ;;
     result <- lift (decode_response (gerrit self) response) ;;
     setattr "username" result ;;;
     ret result).
End Methods.
End GerritAccountMethods.

(** ** Vocabulary for the statements *)
Section Vocabulary.
Context {server : Type}.
Implicit Types (self : GerritChangeReviewers.t server) (w : world server).
Import GerritChangeReviewers.

(** The path a lookup of [account] is sent to. *)
Definition lookup_of self (account : pyval) : string :=
  endpoint self +:+ "/" +:+ py_str account.

(** The world once the lookup of [account] has been answered. *)
Definition looked_up self (account : pyval) w : world server :=
  record_exchange
    (Call (GET (lookup_of self account))
          (raise_for_status (http_get (gerrit self) (lookup_of self account) (srv w))))
    (srv w) w.

Definition not_found_message (account : pyval) : string :=
  "Reviewer " +:+ py_str account +:+ " does not exist".

Definition already_exists_message (reviewer : pyval) : string :=
  "Reviewer " +:+ py_str reviewer +:+ " already exists".

Definition not_found_status (status_code : Z) : bool :=
  orb (Z.eqb status_code 404) (Z.eqb status_code 400).

(** What the server makes of the POST of [input_] to the add endpoint:
    its reply and its next state. *)
Definition post_of self (input_ : pyval) w : reply pyval * server :=
  http_post (gerrit self) (endpoint self) input_ (default_headers (gerrit self)) (srv w).

(** The world of an [add] whose first lookup of [X] was refused, once the
    POST has been answered: two exchanges, one line in the error log. *)
Definition posted self (input_ X : pyval) w : world server :=
  {| srv := snd (post_of self input_ w);
     wire := wire w ++
       [Call (GET (lookup_of self X))
             (raise_for_status (http_get (gerrit self) (lookup_of self X) (srv w)));
        Call (POST (endpoint self) input_ (default_headers (gerrit self)))
             (raise_for_status (fst (post_of self input_ w)))];
     errlog := errlog w ++ [not_found_message X] |}.
End Vocabulary.

(** A caller working with one entity: the operations it may invoke, one
    after the other.  A call that raises leaves the caller free to go on. *)
Section Caller.
Context {server : Type}.
Import GerritChangeReviewer.

Inductive operation : Type :=
| Delete (input_ : pyval)
| ListVotes
| DeleteVote (label : pyval) (input_ : pyval).

Definition perform (op : operation) : M server (t server) pyval :=
  match op with
  | Delete input_ => delete input_
  | ListVotes => list_votes
  | DeleteVote label input_ => delete_vote label input_
  end.

Fixpoint perform_all (ops : list operation) (self : t server) (w : world server)
  : t server * world server :=
  match ops with
  | [] => (self, w)
  | op :: rest =>
      let '(_, self', w') := perform op self w in
      perform_all rest self' w'
  end.
End Caller.

(** ** A small Gerrit to run the methods against *)

(** The remote state of the test server: the answers it gives to lookups,
    by path (a path that is not listed is answered 404), and the accounts it
    knows, by username. *)
Record mock_server : Type := {
  canned : list (string * reply pyval);
  directory : list (string * Z)
}.

Fixpoint lookup_path {A} (path : string) (table : list (string * A)) : option A :=
  match table with
  | [] => None
  | (p, a) :: rest => if String.eqb p path then Some a else lookup_path path rest
  end.

Definition mock_change : pyval := PStr "P~stable~I123".

Definition mock_get (path : string) (s : mock_server) : reply pyval :=
  match lookup_path path (canned s) with
  | Some answer => answer
  | None => Failed 404
  end.

(** Adding a reviewer: a username of the directory becomes a reviewer, and
    lookups of it succeed from then on; anything else is a bad request.
    Other POSTs (the removal endpoints) are accepted as they are. *)
Definition mock_post (path : string) (json headers : pyval) (s : mock_server)
  : reply pyval * mock_server :=
  if String.eqb path "/changes/P~stable~I123/reviewers" then
    match py_get json "reviewer" with
    | Ok (PStr username) =>
        match lookup_path username (directory s) with
        | Some id =>
            let record := PDict [("_account_id", PInt id); ("username", PStr username)] in
            (Replied (PDict [("input", PStr username); ("reviewers", PList [record])]),
             {| canned := (path +:+ "/" +:+ username, Replied (PList [record])) :: canned s;
                directory := directory s |})
        | None => (Failed 400, s)
        end
    | _ => (Failed 400, s)
    end
  else (Replied PNone, s).

Definition mock_delete (path : string) (s : mock_server) : reply pyval * mock_server :=
  (Replied PNone,
   {| canned := filter (fun entry => negb (String.eqb (fst entry) path)) (canned s);
      directory := directory s |}).

Definition mock_put (url : string) (json headers : pyval) (s : mock_server)
  : result Response * mock_server :=
  match py_get json "name" with
  | Ok (PStr name) => (Ok {| status := 200; content := name |}, s)
  | _ => (Ok {| status := 400; content := "name required" |}, s)
  end.

Definition mock_decode (r : Response) : result pyval :=
  if Z.eqb (status r) 200 then Ok (PStr (content r)) else Raise (HTTPError (status r)).

Definition mock_client : GerritClient mock_server := {|
  default_headers := PDict [("Content-Type", PStr "application/json; charset=UTF-8")];
  http_get := mock_get;
  http_post := mock_post;
  http_delete := mock_delete;
  get_endpoint_url := fun endpoint => "https://gerrit.example.com/a" +:+ endpoint;
  http_put := mock_put;
  decode_response := mock_decode
|}.

(** One reviewer (jane.roe, account 1000097) is on the change; one lookup
    path is broken and answers 500; one answers with an empty list.  The
    directory also knows john.doe, who is not a reviewer yet. *)
Definition mock_state : mock_server := {|
  canned :=
    [("/changes/P~stable~I123/reviewers/jane.roe",
      Replied (PList [PDict [("_account_id", PInt 1000097); ("username", PStr "jane.roe")]]));
     ("/changes/P~stable~I123/reviewers/broken", Failed 500);
     ("/changes/P~stable~I123/reviewers/ghost", Replied (PList []))];
  directory := [("jane.roe", 1000097); ("john.doe", 1000096)]
|}.

Definition mock_world : world mock_server :=
  {| srv := mock_state; wire := []; errlog := [] |}.

Definition mock_reviewers : GerritChangeReviewers.t mock_server :=
  GerritChangeReviewers.__init__ mock_change mock_client.

Definition mock_account : GerritAccount.t mock_server := {|
  GerritAccount.attrs :=
    <["username" := PStr "john.doe"]>
      (<["_account_id" := PInt 1000096]>
         (<["name" := PStr "John"]>
            (<["email" := PStr "john.doe@example.com"]>
               (<["registered_on" := PStr "2013-02-01 09:59:32.126000000"]> ∅))));
  GerritAccount.gerrit := mock_client
|}.

(** Inputs of [add]: a reviewer the server can add, one who is on the
    change already, one the server has never heard of, and an input with no
    [reviewer] entry. *)
Definition john_input : pyval := PDict [("reviewer", PStr "john.doe")].
Definition jane_input : pyval := PDict [("reviewer", PStr "jane.roe"); ("state", PStr "CC")].
Definition nobody_input : pyval := PDict [("reviewer", PStr "nobody")].
Definition stateonly_input : pyval := PDict [("state", PStr "CC")].

Definition notify_none : pyval := PDict [("notify", PStr "NONE")].

Definition mock_entity (id : Z) : GerritChangeReviewer.t mock_server := {|
  GerritChangeReviewer.account := PInt id;
  GerritChangeReviewer.change := mock_change;
  GerritChangeReviewer.gerrit := mock_client;
  GerritChangeReviewer.endpoint := "/changes/P~stable~I123/reviewers/" +:+ str_int id
|}.


Definition john_record : pyval :=
  PDict [("_account_id", PInt 1000096); ("username", PStr "john.doe")].

(** The type check the decorator makes for [input_: dict]. *)
Definition mock_check (input_ : pyval) : option exn :=
  match input_ with
  | PDict _ => None
  | _ => Some TypeError
  end.

(** A server that accepts a new username, and a requester whose DELETE is
    refused for every URL but that of john.doe's name. *)
Definition rename_put (url : string) (json headers : pyval) (s : mock_server)
  : result Response * mock_server :=
  match py_get json "username" with
  | Ok (PStr username) => (Ok {| status := 200; content := username |}, s)
  | _ => mock_put url json headers s
  end.

Definition rename_client : GerritClient mock_server := {|
  default_headers := default_headers mock_client;
  http_get := mock_get;
  http_post := mock_post;
  http_delete := mock_delete;
  get_endpoint_url := get_endpoint_url mock_client;
  http_put := rename_put;
  decode_response := mock_decode
|}.

Definition rename_account : GerritAccount.t mock_server := {|
  GerritAccount.attrs := GerritAccount.attrs mock_account;
  GerritAccount.gerrit := rename_client
|}.

Definition mock_requester : Requester mock_server := {|
  http_delete_raw := fun url s =>
    if String.eqb url "https://gerrit.example.com/a/accounts/john.doe/name"
    then (Ok {| status := 204; content := EmptyString |}, s)
    else (Ok {| status := 405; content := "Method Not Allowed" |}, s);
  response_raise_for_status := fun r =>
    if andb (Z.leb 400 (status r)) (Z.ltb (status r) 600)
    then Raise (HTTPError (status r)) else Ok tt
|}.

(** An account whose realm keeps the name: the DELETE is answered 405. *)
Definition realm_account : GerritAccount.t mock_server := {|
  GerritAccount.attrs :=
    <["username" := PStr "jane.roe"]> (<["name" := PStr "Jane"]> ∅);
  GerritAccount.gerrit := mock_client
|}.

(** A reviewer record the server sends without an account id. *)
Definition anonymous_state : mock_server := {|
  canned :=
    [("/changes/P~stable~I123/reviewers/group-x",
      Replied (PList [PDict [("name", PStr "Group X")]]));
     ("/changes/P~stable~I123/reviewers/object", Replied (PDict [("_account_id", PInt 7)]));
     ("/changes/P~stable~I123/reviewers/null", Replied PNone);
     ("/changes/P~stable~I123/reviewers/ids", Replied (PList [PInt 7]));
     ("/changes/P~stable~I123/reviewers/down", Unreachable "ConnectionError")];
  directory := []
|}.

Definition anonymous_world : world mock_server :=
  {| srv := anonymous_state; wire := []; errlog := [] |}.

(** * Properties *)

Example py_str_None : py_str PNone = "None".
Proof. reflexivity. Qed.

Example py_str_int : py_str (PInt 1000096) = "1000096".
Proof. reflexivity. Qed.

Example py_str_dict :
  py_str (PDict [("notify", PStr "NONE"); ("n", PList [PInt (-1); PBool true])])
  = "{'notify': 'NONE', 'n': [-1, True]}".
Proof. reflexivity. Qed.

Lemma append_cons (c : ascii) (s t : string) : String c s +:+ t = String c (s +:+ t).
Proof. reflexivity. Qed.

Lemma prefix_append (s t : string) : String.prefix s (s +:+ t) = true.
Proof.
  induction s as [| c s IH].
  - now destruct t.
  - rewrite append_cons. simpl.
    destruct (ascii_dec c c) as [_ | Hne]; [exact IH | now destruct Hne].
Qed.

Lemma prefix_refl (s : string) : String.prefix s s = true.
Proof.
  induction s as [| c s IH]; [reflexivity |]. simpl.
  destruct (ascii_dec c c) as [_ | Hne]; [exact IH | now destruct Hne].
Qed.

Lemma append_assoc (s t u : string) : (s +:+ t) +:+ u = s +:+ (t +:+ u).
Proof.
  induction s as [| c s IH]; [reflexivity |].
  rewrite !append_cons. now f_equal.
Qed.

Lemma assoc_None_get (entries : list (string * pyval)) (key : string) :
  assoc key entries = None -> py_get (PDict entries) key = Ok PNone.
Proof. intros H. simpl. now rewrite H. Qed.

(** ** The lookup: [GerritChangeReviewers.get] *)
Section Lookup.
Context {server : Type}.
Implicit Types (self : GerritChangeReviewers.t server) (w : world server).
Import GerritChangeReviewers.

Lemma not_found_status_spec (status_code : Z) :
  not_found_status status_code = true <-> status_code = 404 \/ status_code = 400.
Proof. unfold not_found_status. rewrite orb_true_iff, !Z.eqb_eq. tauto. Qed.

Ltac open_get H :=
  unfold get, try_except, bind, get_self, gerrit_get, lift, looked_up, lookup_of in *;
  rewrite H; simpl.

(** [get] answered with an HTTP error. *)
Lemma get_http_error self account w status_code :
  http_get (gerrit self) (lookup_of self account) (srv w) = Failed status_code ->
  get account self w =
    if not_found_status status_code then
      (Raise (ReviewerNotFoundError (not_found_message account)), self,
       {| srv := srv w;
          wire := wire (looked_up self account w);
          errlog := errlog w ++ [not_found_message account] |})
    else
      (Raise (GerritAPIException (HTTPError status_code)), self, looked_up self account w).
Proof.
  intros H. open_get H. unfold not_found_status.
  destruct (orb (Z.eqb status_code 404) (Z.eqb status_code 400)); reflexivity.
Qed.

(** [get] with no answer at all: the transport's exception passes. *)
Lemma get_unreachable self account w kind :
  http_get (gerrit self) (lookup_of self account) (srv w) = Unreachable kind ->
  get account self w = (Raise (RequestException kind), self, looked_up self account w).
Proof. intros H. open_get H. reflexivity. Qed.

(** [get] answered with a body. *)
Lemma get_body self account w body :
  http_get (gerrit self) (lookup_of self account) (srv w) = Replied body ->
  get account self w =
    match py_getitem_0 body with
    | Ok first =>
        match py_get first "_account_id" with
        | Ok id =>
            (Ok {| GerritChangeReviewer.account := id;
                   GerritChangeReviewer.change := change self;
                   GerritChangeReviewer.gerrit := gerrit self;
                   GerritChangeReviewer.endpoint :=
                     "/changes/" +:+ py_str (change self) +:+ "/reviewers/" +:+ py_str id |},
             self, looked_up self account w)
        | Raise e => (Raise e, self, looked_up self account w)
        end
    | Raise e => (Raise e, self, looked_up self account w)
    end.
Proof.
  intros H. open_get H.
  destruct body as [| b | z | s | [| first items] | entries]; simpl; try reflexivity.
  - destruct s; reflexivity.
  - destruct first; reflexivity.
Qed.

(** The three ways a lookup can be answered. *)
Variant answered self (account : pyval) w : Prop :=
| answered_body body :
    http_get (gerrit self) (lookup_of self account) (srv w) = Replied body ->
    answered self account w
| answered_error status_code :
    http_get (gerrit self) (lookup_of self account) (srv w) = Failed status_code ->
    answered self account w
| answered_nothing kind :
    http_get (gerrit self) (lookup_of self account) (srv w) = Unreachable kind ->
    answered self account w.

Lemma answered_cases self account w : answered self account w.
Proof.
  destruct (http_get (gerrit self) (lookup_of self account) (srv w)) eqn:H;
    eauto using answered.
Qed.

(** Whatever the answer, a lookup is one GET, and the server and the
    collection stay as they were. *)
Lemma get_wire self account w :
  wire (snd (get account self w)) = wire (looked_up self account w)
  /\ srv (snd (get account self w)) = srv w
  /\ snd (fst (get account self w)) = self.
Proof.
  destruct (answered_cases self account w) as [body H | status_code H | kind H].
  - rewrite (get_body _ _ _ _ H).
    destruct (py_getitem_0 body) as [first | e1]; [| now simpl].
    destruct (py_get first "_account_id"); now simpl.
  - rewrite (get_http_error _ _ _ _ H). destruct (not_found_status status_code); now simpl.
  - rewrite (get_unreachable _ _ _ _ H). now simpl.
Qed.

(** A lookup raises [ReviewerNotFoundError] only on an HTTP error. *)
Lemma get_not_found_inv self account w message :
  fst (fst (get account self w)) = Raise (ReviewerNotFoundError message) ->
  exists status_code,
    http_get (gerrit self) (lookup_of self account) (srv w) = Failed status_code
    /\ not_found_status status_code = true
    /\ message = not_found_message account.
Proof.
  destruct (answered_cases self account w) as [body H | status_code H | kind H].
  - rewrite (get_body _ _ _ _ H).
    destruct (py_getitem_0 body) as [first | e1] eqn:H0.
    + destruct (py_get first "_account_id") as [id | e2] eqn:H1; simpl; [discriminate |].
      destruct first; simpl in H1; congruence.
    + simpl. destruct body as [| | | s | [| ? ?] | ]; simpl in H0; try congruence.
      destruct s; congruence.
  - rewrite (get_http_error _ _ _ _ H).
    destruct (not_found_status status_code) eqn:Hs; simpl; intros E; [| discriminate].
    exists status_code. repeat split; congruence.
  - rewrite (get_unreachable _ _ _ _ H). simpl. discriminate.
Qed.

(** A lookup that returns an entity was answered with a list whose first
    record has the entity's account. *)
Lemma get_ok_inv self account w e :
  fst (fst (get account self w)) = Ok e ->
  exists first rest,
    http_get (gerrit self) (lookup_of self account) (srv w) = Replied (PList (first :: rest))
    /\ py_get first "_account_id" = Ok (GerritChangeReviewer.account e)
    /\ GerritChangeReviewer.change e = change self
    /\ GerritChangeReviewer.gerrit e = gerrit self
    /\ GerritChangeReviewer.endpoint e =
         "/changes/" +:+ py_str (change self) +:+ "/reviewers/"
         +:+ py_str (GerritChangeReviewer.account e).
Proof.
  destruct (answered_cases self account w) as [body H | status_code H | kind H].
  - rewrite (get_body _ _ _ _ H).
    destruct (py_getitem_0 body) as [first | e1] eqn:H0; [| simpl; discriminate].
    destruct (py_get first "_account_id") as [id | e2] eqn:H1; simpl; [| discriminate].
    intros E. injection E as <-. simpl.
    destruct body as [| | | s | [| x rest] | ]; simpl in H0; try discriminate.
    + destruct s; [discriminate |]. injection H0 as <-. simpl in H1. discriminate.
    + injection H0 as ->. exists first, rest. repeat split; assumption.
  - rewrite (get_http_error _ _ _ _ H).
    destruct (not_found_status status_code); simpl; discriminate.
  - rewrite (get_unreachable _ _ _ _ H). simpl. discriminate.
Qed.

(** A lookup that returns leaves nothing behind but its one exchange. *)
Lemma get_ok_world self account w e :
  fst (fst (get account self w)) = Ok e ->
  get account self w = (Ok e, self, looked_up self account w).
Proof.
  destruct (answered_cases self account w) as [body H | status_code H | kind H].
  - rewrite (get_body _ _ _ _ H).
    destruct (py_getitem_0 body) as [first | e1]; [| simpl; discriminate].
    destruct (py_get first "_account_id"); simpl; [| discriminate].
    now intros [= <-].
  - rewrite (get_http_error _ _ _ _ H).
    destruct (not_found_status status_code); simpl; discriminate.
  - rewrite (get_unreachable _ _ _ _ H). simpl. discriminate.
Qed.
End Lookup.

Section LookupClaims.
Context {server : Type}.
Implicit Types (self : GerritChangeReviewers.t server) (w : world server).
Import GerritChangeReviewers.

(** C2: when the GET behind [get(account)] fails, [get] raises
    [ReviewerNotFoundError] exactly when the failure is an HTTP error of
    status 404 or 400, and then with the message
    "Reviewer <account> does not exist", built from the account the caller
    asked for; on an HTTP error of any other status it raises
    [GerritAPIException] with the transport's [HTTPError] as its cause.
    Whatever the failure, the call raises: it is never swallowed. *)
Theorem get_classifies_http_failure self account w err :
  raise_for_status (http_get (gerrit self) (lookup_of self account) (srv w)) = Raise err ->
  ((exists message,
       fst (fst (get account self w)) = Raise (ReviewerNotFoundError message))
   <-> err = HTTPError 404 \/ err = HTTPError 400)
  /\ (err = HTTPError 404 \/ err = HTTPError 400 ->
      fst (fst (get account self w))
      = Raise (ReviewerNotFoundError ("Reviewer " +:+ py_str account +:+ " does not exist")))
  /\ (forall status_code,
         err = HTTPError status_code -> status_code <> 404 -> status_code <> 400 ->
         fst (fst (get account self w)) = Raise (GerritAPIException (HTTPError status_code)))
  /\ (exists e, fst (fst (get account self w)) = Raise e).
Proof.
  intros Hfail.
  destruct (answered_cases self account w) as [body H | status_code H | kind H];
    rewrite H in Hfail; simpl in Hfail; [discriminate | |]; injection Hfail as <-.
  - rewrite (get_http_error _ _ _ _ H).
    pose proof (not_found_status_spec status_code) as Hs.
    destruct (not_found_status status_code); simpl.
    + assert (Hin : status_code = 404 \/ status_code = 400) by now apply Hs.
      assert (Herr : HTTPError status_code = HTTPError 404
                     \/ HTTPError status_code = HTTPError 400)
        by (destruct Hin as [-> | ->]; auto).
      repeat split; eauto.
      intros sc [= <-] H404 H400. now destruct Hin.
    + assert (Hout : ~ (status_code = 404 \/ status_code = 400)).
      { intros Hin. apply Hs in Hin. discriminate. }
      assert (Herr : ~ (HTTPError status_code = HTTPError 404
                        \/ HTTPError status_code = HTTPError 400)).
      { intros [[= ->] | [= ->]]; apply Hout; auto. }
      repeat split; eauto.
      * intros [message E]. discriminate.
      * intros Hin. now destruct Herr.
      * intros Hin. now destruct Herr.
      * now intros sc [= <-] _ _.
  - rewrite (get_unreachable _ _ _ _ H). simpl.
    repeat split; eauto.
    + intros [message E]. discriminate.
    + intros [E | E]; discriminate.
    + intros [E | E]; discriminate.
    + intros sc E. discriminate.
Qed.


(** C9: when the lookup succeeds with an empty list, [get] raises
    [IndexError] (from [result[0]]), which is neither
    [ReviewerNotFoundError] nor [GerritAPIException]. *)
Theorem get_empty_response self account w :
  http_get (gerrit self) (lookup_of self account) (srv w) = Replied (PList []) ->
  fst (fst (get account self w)) = Raise IndexError
  /\ (forall message,
         fst (fst (get account self w)) <> Raise (ReviewerNotFoundError message))
  /\ (forall cause,
         fst (fst (get account self w)) <> Raise (GerritAPIException cause)).
Proof.
  intros H. rewrite (get_body _ _ _ _ H). simpl.
  repeat split; intros; discriminate.
Qed.
End LookupClaims.

(** C2 at work: nobody is no reviewer (404); the broken path answers 500. *)
Lemma get_classifies_http_failure_witness :
  raise_for_status
    (http_get (GerritChangeReviewers.gerrit mock_reviewers)
              (lookup_of mock_reviewers (PStr "nobody")) (srv mock_world))
  = Raise (HTTPError 404)
  /\ fst (fst (GerritChangeReviewers.get (PStr "nobody") mock_reviewers mock_world))
     = Raise (ReviewerNotFoundError "Reviewer nobody does not exist").
Proof.
  split; [reflexivity |].
  apply (get_classifies_http_failure mock_reviewers (PStr "nobody") mock_world (HTTPError 404));
    [reflexivity | now left].
Defined.

Example get_broken_lookup :
  fst (fst (GerritChangeReviewers.get (PStr "broken") mock_reviewers mock_world))
  = Raise (GerritAPIException (HTTPError 500)).
Proof. reflexivity. Qed.



(** C9 at work: the ghost path answers 200 with an empty list. *)
Lemma get_empty_response_witness :
  http_get (GerritChangeReviewers.gerrit mock_reviewers)
           (lookup_of mock_reviewers (PStr "ghost")) (srv mock_world) = Replied (PList [])
  /\ fst (fst (GerritChangeReviewers.get (PStr "ghost") mock_reviewers mock_world))
     = Raise IndexError.
Proof.
  split; [reflexivity |].
  apply (get_empty_response mock_reviewers (PStr "ghost") mock_world). reflexivity.
Defined.

(** ** Adding a reviewer: [GerritChangeReviewers.add] *)
Section Add.
Context {server : Type}.
Implicit Types (self : GerritChangeReviewers.t server) (w : world server).
Import GerritChangeReviewers.

Lemma lookup_of_init (change : pyval) (g : GerritClient server) (account : pyval) :
  lookup_of (__init__ change g) account
  = "/changes/" +:+ py_str change +:+ "/reviewers/" +:+ py_str account.
Proof.
  unfold lookup_of, __init__. simpl.
  now rewrite !append_assoc.
Qed.

(** [add] when the first lookup returns an entity. *)
Lemma add_found self input_ X w e :
  py_get input_ "reviewer" = Ok X ->
  fst (fst (get X self w)) = Ok e ->
  add input_ self w =
    (Raise (ReviewerAlreadyExistsError (already_exists_message X)), self,
     {| srv := srv w;
        wire := wire (looked_up self X w);
        errlog := errlog w ++ [already_exists_message X] |}).
Proof.
  intros HX He.
  unfold add, bind, lift, try_except, logger_error, raise.
  rewrite HX, (get_ok_world _ _ _ _ He). reflexivity.
Qed.

(** [add] when the first lookup reports not-found: the POST, then, if it
    went through, the second lookup. *)
Lemma add_not_found self input_ X w message :
  py_get input_ "reviewer" = Ok X ->
  fst (fst (get X self w)) = Raise (ReviewerNotFoundError message) ->
  add input_ self w =
    match fst (post_of self input_ w) with
    | Replied _ => get X self (posted self input_ X w)
    | Failed status_code => (Raise (HTTPError status_code), self, posted self input_ X w)
    | Unreachable kind => (Raise (RequestException kind), self, posted self input_ X w)
    end.
Proof.
  intros HX Hnf.
  destruct (get_not_found_inv _ _ _ _ Hnf) as (status_code & Hget & Hs & ->).
  unfold add, bind, lift, try_except, get_self, gerrit_post, posted, post_of.
  rewrite HX, (get_http_error _ _ _ _ Hget), Hs. simpl.
  destruct (http_post (gerrit self) (endpoint self) input_ (default_headers (gerrit self))
                      (srv w)) as [r s1].
  unfold record_exchange, looked_up. simpl. rewrite <- !app_assoc. simpl.
  rewrite Hget. simpl.
  destruct r; reflexivity.
Qed.

(** [add] when the first lookup raises anything else: it passes. *)
Lemma add_lookup_error self input_ X w err :
  py_get input_ "reviewer" = Ok X ->
  fst (fst (get X self w)) = Raise err ->
  (forall message, err <> ReviewerNotFoundError message) ->
  fst (fst (add input_ self w)) = Raise err.
Proof.
  intros HX Herr Hother.
  unfold add, bind, lift, try_except. rewrite HX.
  destruct (get X self w) as [[r self1] w1]. simpl in Herr. subst r.
  destruct err; try reflexivity.
  now destruct (Hother message).
Qed.

(** [add] on an input that has no [get] method. *)
Lemma add_bad_input self input_ w err :
  py_get input_ "reviewer" = Raise err ->
  add input_ self w = (Raise err, self, w).
Proof. intros HX. unfold add, bind, lift. now rewrite HX. Qed.

(** C1 (amended): when the first lookup of the reviewer X raises
    [ReviewerNotFoundError], [add] makes exactly one POST of the input to
    /changes/<change>/reviewers right after that lookup.  If the POST is
    answered with a body, exactly one further GET of X follows, and [add]
    ends as that second [get] ends, with the entity it returns or the
    error it raises, whatever the body of the POST was.  If the POST
    fails, its error is raised and no further request is made. *)
Theorem add_absent_reviewer (change : pyval) (g : GerritClient server) input_ X w message :
  py_get input_ "reviewer" = Ok X ->
  fst (fst (get X (__init__ change g) w)) = Raise (ReviewerNotFoundError message) ->
  let self := __init__ change g in
  let lookup := "/changes/" +:+ py_str change +:+ "/reviewers/" +:+ py_str X in
  let add_endpoint := "/changes/" +:+ py_str change +:+ "/reviewers" in
  let added := http_post g add_endpoint input_ (default_headers g) (srv w) in
  let w2 := posted self input_ X w in
  wire w2 = wire w ++
              [Call (GET lookup) (raise_for_status (http_get g lookup (srv w)));
               Call (POST add_endpoint input_ (default_headers g))
                    (raise_for_status (fst added))]
  /\ srv w2 = snd added
  /\ match fst added with
     | Replied _ =>
         add input_ self w = get X self w2
         /\ wire (snd (add input_ self w))
            = wire w2 ++ [Call (GET lookup) (raise_for_status (http_get g lookup (snd added)))]
     | Failed status_code =>
         add input_ self w = (Raise (HTTPError status_code), self, w2)
     | Unreachable kind =>
         add input_ self w = (Raise (RequestException kind), self, w2)
     end.
Proof.
  intros HX Hnf self lookup add_endpoint added w2.
  pose proof (add_not_found self input_ X w message HX Hnf) as Hadd.
  assert (Hlookup : lookup_of self X = lookup) by apply lookup_of_init.
  assert (Hadded : post_of self input_ w = added) by reflexivity.
  clearbody lookup added. subst w2.
  rewrite Hadded in Hadd.
  split; [| split].
  - unfold posted. simpl. now rewrite Hlookup, Hadded.
  - unfold posted. simpl. now rewrite Hadded.
  - destruct (fst added) eqn:Hreply; try exact Hadd.
    split; [exact Hadd |].
    rewrite Hadd.
    destruct (get_wire self X (posted self input_ X w)) as (Hw & _ & _).
    rewrite Hw. unfold looked_up, record_exchange, posted. simpl.
    now rewrite Hlookup, Hadded.
Qed.

(** C3: when the first lookup of the reviewer X returns an entity, [add]
    raises [ReviewerAlreadyExistsError]; the call makes one request, the
    GET of that lookup, so nothing that could change the server is sent,
    and the server's state after the call is its state before. *)
Theorem add_existing_reviewer self input_ X w e :
  py_get input_ "reviewer" = Ok X ->
  fst (fst (get X self w)) = Ok e ->
  fst (fst (add input_ self w))
  = Raise (ReviewerAlreadyExistsError ("Reviewer " +:+ py_str X +:+ " already exists"))
  /\ (exists answer,
         wire (snd (add input_ self w))
         = wire w ++ [Call (GET (endpoint self +:+ "/" +:+ py_str X)) answer])
  /\ (forall x, In x (wire (snd (add input_ self w))) ->
                In x (wire w) \/ mutating (sent_of x) = false)
  /\ srv (snd (add input_ self w)) = srv w.
Proof.
  intros HX He. rewrite (add_found _ _ _ _ _ HX He). simpl.
  repeat split.
  - eexists. reflexivity.
  - intros x Hx. apply in_app_or in Hx. destruct Hx as [Hx | [<- | []]]; [now left | now right].
Qed.

(** C5: an entity that [get] or [add] returns comes from a lookup
    answered in that very call.  The last exchange of the call is a GET
    of the reviewer asked for, under the endpoint of the collection,
    answered with a list; the entity's [account] is [_account_id] of the
    first record of that answer and its [change] is the collection's. *)
Theorem returned_entity_was_looked_up self w e :
  (forall account,
      fst (fst (get account self w)) = Ok e ->
      exists first rest,
        wire (snd (get account self w))
        = wire w ++ [Call (GET (endpoint self +:+ "/" +:+ py_str account))
                          (Ok (PList (first :: rest)))]
        /\ py_get first "_account_id" = Ok (GerritChangeReviewer.account e)
        /\ GerritChangeReviewer.change e = change self)
  /\ (forall input_,
      fst (fst (add input_ self w)) = Ok e ->
      exists X earlier first rest,
        py_get input_ "reviewer" = Ok X
        /\ wire (snd (add input_ self w))
           = wire w ++ earlier ++ [Call (GET (endpoint self +:+ "/" +:+ py_str X))
                                        (Ok (PList (first :: rest)))]
        /\ py_get first "_account_id" = Ok (GerritChangeReviewer.account e)
        /\ GerritChangeReviewer.change e = change self).
Proof.
  assert (Hget : forall account w0,
             fst (fst (get account self w0)) = Ok e ->
             exists first rest,
               wire (snd (get account self w0))
               = wire w0 ++ [Call (GET (endpoint self +:+ "/" +:+ py_str account))
                                  (Ok (PList (first :: rest)))]
               /\ py_get first "_account_id" = Ok (GerritChangeReviewer.account e)
               /\ GerritChangeReviewer.change e = change self).
  { intros account w0 He.
    destruct (get_ok_inv _ _ _ _ He) as (first & rest & Hans & Hid & Hch & _).
    exists first, rest. rewrite (get_ok_world _ _ _ _ He). simpl.
    unfold lookup_of in *. rewrite Hans. auto. }
  split; [intros account; apply Hget |].
  intros input_ He.
  destruct (py_get input_ "reviewer") as [X | err] eqn:HX;
    [| rewrite (add_bad_input _ _ _ _ HX) in He; discriminate].
  destruct (fst (fst (get X self w))) as [e0 | err] eqn:Hfirst.
  { rewrite (add_found _ _ _ _ _ HX Hfirst) in He. discriminate. }
  assert (Hnf : exists message, err = ReviewerNotFoundError message).
  { destruct err; eauto;
      rewrite (add_lookup_error _ _ _ _ _ HX Hfirst) in He;
      try discriminate; intros ? ?; discriminate. }
  destruct Hnf as [message ->].
  rewrite (add_not_found _ _ _ _ _ HX Hfirst) in He |- *.
  destruct (fst (post_of self input_ w)); try discriminate.
  destruct (Hget X _ He) as (first & rest & Hw & Hid & Hch).
  exists X, [Call (GET (lookup_of self X))
                  (raise_for_status (http_get (gerrit self) (lookup_of self X) (srv w)));
             Call (POST (endpoint self) input_ (default_headers (gerrit self)))
                  (raise_for_status (fst (post_of self input_ w)))], first, rest.
  repeat split; try assumption.
  rewrite Hw. unfold posted. simpl. now rewrite <- !app_assoc.
Qed.

(** C7 (amended): [add] reads the reviewer with [input_.get], so a dict
    without a [reviewer] entry is not rejected: the identifier is [None],
    and the call starts with the lookup GET of
    /changes/<change>/reviewers/None.  Nothing of the input is checked
    before that request is made; what the call returns or raises is
    decided by the server's answers. *)
Theorem add_without_reviewer_field (change : pyval) (g : GerritClient server) entries w :
  assoc "reviewer" entries = None ->
  let lookup := "/changes/" +:+ py_str change +:+ "/reviewers/None" in
  exists later,
    wire (snd (add (PDict entries) (__init__ change g) w))
    = wire w ++ Call (GET lookup) (raise_for_status (http_get g lookup (srv w))) :: later.
Proof.
  intros Hmissing lookup. set (self := __init__ change g).
  pose proof (assoc_None_get _ _ Hmissing) as HX.
  assert (Hlookup : lookup_of self PNone = lookup) by apply lookup_of_init.
  destruct (fst (fst (get PNone self w))) as [e0 | err] eqn:Hfirst.
  { rewrite (add_found _ _ _ _ _ HX Hfirst). simpl. rewrite Hlookup. now exists []. }
  destruct (get_wire self PNone w) as (Hw & _ & _).
  assert (Hnf : (exists message, err = ReviewerNotFoundError message)
                \/ (forall message, err <> ReviewerNotFoundError message)).
  { destruct err; eauto; right; intros ? ?; discriminate. }
  destruct Hnf as [[message ->] | Hother].
  - rewrite (add_not_found _ _ _ _ _ HX Hfirst).
    destruct (fst (post_of self (PDict entries) w)).
    + destruct (get_wire self PNone (posted self (PDict entries) PNone w)) as (Hw2 & _ & _).
      rewrite Hw2. unfold looked_up, posted, record_exchange. simpl.
      rewrite Hlookup. rewrite <- app_assoc. simpl. eexists. reflexivity.
    + simpl. rewrite Hlookup. eexists. reflexivity.
    + simpl. rewrite Hlookup. eexists. reflexivity.
  - unfold add, bind, lift, try_except. rewrite HX.
    destruct (get PNone self w) as [[r self1] w1]. simpl in Hfirst, Hw. subst r.
    exists []. destruct err; simpl; try (rewrite Hw; simpl; now rewrite Hlookup).
    now destruct (Hother message).
Qed.
End Add.

(** ** The entity: [GerritChangeReviewer] *)
Section Entity.
Context {server : Type}.
Implicit Types (e : GerritChangeReviewer.t server) (w : world server).
Import GerritChangeReviewer.

(** The constructor returns the object its four assignments describe. *)
Lemma init_returns {S} (account change : pyval) (g : GerritClient server)
      (caller : S) (w0 : world server) e :
  fst (fst (__init__ account change g caller w0)) = Ok e ->
  e = {| account := account;
         change := change;
         gerrit := g;
         endpoint := "/changes/" +:+ py_str change +:+ "/reviewers/" +:+ py_str account |}.
Proof. unfold __init__, construct, GerritBase__init__, ret. simpl. now intros [= <-]. Qed.

(** One call of any operation: [self] is not assigned to, and the one
    request goes to a path under the endpoint. *)
Lemma perform_one (op : operation) e w :
  snd (fst (perform op e w)) = e
  /\ exists x,
      wire (snd (perform op e w)) = wire w ++ [x]
      /\ String.prefix (endpoint e) (path_of (sent_of x)) = true.
Proof.
  destruct op as [input_ | | label input_]; simpl;
    unfold delete, list_votes, delete_vote, bind, get_self, ret,
           gerrit_delete, gerrit_post, gerrit_get.
  - destruct (is_None input_).
    + destruct (http_delete (gerrit e) (endpoint e) (srv w)) as [[body | sc | kind] s1];
        simpl; (split; [reflexivity | eexists; split; [reflexivity |]]); simpl;
        apply prefix_refl.
    + destruct (http_post (gerrit e) (endpoint e +:+ "/delete") input_
                          (default_headers (gerrit e)) (srv w)) as [[body | sc | kind] s1];
        simpl; (split; [reflexivity | eexists; split; [reflexivity |]]); simpl;
        apply prefix_append.
  - split; [reflexivity | eexists; split; [reflexivity |]]. simpl. apply prefix_append.
  - destruct (is_None input_).
    + destruct (http_delete (gerrit e) (endpoint e +:+ "/votes/" +:+ py_str label) (srv w))
        as [[body | sc | kind] s1];
        simpl; (split; [reflexivity | eexists; split; [reflexivity |]]); simpl;
        apply prefix_append.
    + destruct (http_post (gerrit e) ((endpoint e +:+ "/votes/" +:+ py_str label) +:+ "/delete")
                          input_ (default_headers (gerrit e)) (srv w))
        as [[body | sc | kind] s1];
        simpl; (split; [reflexivity | eexists; split; [reflexivity |]]); simpl;
        rewrite append_assoc; apply prefix_append.
Qed.

(** Any run of operations: the same. *)
Lemma perform_all_frame (ops : list operation) e w :
  fst (perform_all ops e w) = e
  /\ exists issued,
      wire (snd (perform_all ops e w)) = wire w ++ issued
      /\ Forall (fun x => String.prefix (endpoint e) (path_of (sent_of x)) = true) issued.
Proof.
  revert w. induction ops as [| op rest IH]; intros w; simpl.
  - split; [reflexivity |]. exists []. split; [now rewrite app_nil_r | constructor].
  - destruct (perform_one op e w) as (Hself & x & Hwire & Hx).
    destruct (perform op e w) as [[r self1] w1]. simpl in Hself, Hwire. subst self1.
    destruct (IH w1) as (Hself & issued & Hwire' & Hissued).
    split; [exact Hself |].
    exists (x :: issued). split.
    + rewrite Hwire', Hwire, <- app_assoc. reflexivity.
    + now constructor.
Qed.

Lemma is_None_false (v : pyval) : v <> PNone -> is_None v = false.
Proof. destruct v; intros H; try reflexivity. now destruct H. Qed.

(** C6: for a reviewer entity built for [account] on [change],
    [delete()] makes one DELETE to /changes/<change>/reviewers/<account>
    and [delete(input_)] with a payload makes one POST of that payload to
    the same path with /delete appended; [delete_vote(label)] makes one
    DELETE to .../votes/<label> and [delete_vote(label, input_)] with a
    payload one POST to .../votes/<label>/delete.  Only [input_ is None]
    decides which: the server's state and answers play no part. *)
Theorem removal_requests {S} (account change : pyval) (g : GerritClient server)
        (caller : S) (w0 : world server) e (label input_ : pyval) w :
  fst (fst (__init__ account change g caller w0)) = Ok e ->
  let base := "/changes/" +:+ py_str change +:+ "/reviewers/" +:+ py_str account in
  (exists answer,
      wire (snd (delete PNone e w)) = wire w ++ [Call (DELETE base) answer])
  /\ (input_ <> PNone ->
      exists answer,
        wire (snd (delete input_ e w))
        = wire w ++ [Call (POST (base +:+ "/delete") input_ (default_headers g)) answer])
  /\ (exists answer,
         wire (snd (delete_vote label PNone e w))
         = wire w ++ [Call (DELETE (base +:+ "/votes/" +:+ py_str label)) answer])
  /\ (input_ <> PNone ->
      exists answer,
        wire (snd (delete_vote label input_ e w))
        = wire w ++ [Call (POST (base +:+ "/votes/" +:+ py_str label +:+ "/delete")
                                input_ (default_headers g)) answer]).
Proof.
  intros He base. apply init_returns in He. subst e.
  unfold delete, delete_vote, bind, get_self, ret, gerrit_delete, gerrit_post.
  simpl. fold base.
  repeat split.
  - destruct (http_delete g base (srv w)) as [r s1]. destruct r; simpl; eauto.
  - intros Hpayload. rewrite (is_None_false _ Hpayload).
    destruct (http_post g (base +:+ "/delete") input_ (default_headers g) (srv w)) as [r s1].
    destruct r; simpl; eauto.
  - destruct (http_delete g (base +:+ "/votes/" +:+ py_str label) (srv w)) as [r s1].
    destruct r; simpl; eauto.
  - intros Hpayload. rewrite (is_None_false _ Hpayload).
    rewrite (append_assoc base). rewrite (append_assoc "/votes/").
    destruct (http_post g (base +:+ "/votes/" +:+ py_str label +:+ "/delete") input_
                        (default_headers g) (srv w)) as [r s1].
    destruct r; simpl; eauto.
Qed.

(** C10: a reviewer entity built for [account] on [change] keeps its
    [account], [change], [gerrit] and [endpoint] through any run of
    [delete], [list_votes] and [delete_vote] calls, and every request
    those calls make goes to a path that begins with
    /changes/<change>/reviewers/<account>. *)
Theorem entity_identity_preserved {S} (account change : pyval) (g : GerritClient server)
        (caller : S) (w0 : world server) e (ops : list operation) w :
  fst (fst (__init__ account change g caller w0)) = Ok e ->
  let base := "/changes/" +:+ py_str change +:+ "/reviewers/" +:+ py_str account in
  fst (perform_all ops e w) = e
  /\ GerritChangeReviewer.account e = account
  /\ GerritChangeReviewer.change e = change
  /\ endpoint e = base
  /\ exists issued,
      wire (snd (perform_all ops e w)) = wire w ++ issued
      /\ Forall (fun x => String.prefix base (path_of (sent_of x)) = true) issued.
Proof.
  intros He base. apply init_returns in He.
  destruct (perform_all_frame ops e w) as (Hself & issued & Hwire & Hissued).
  assert (Hbase : endpoint e = base) by now subst e.
  rewrite Hbase in Hissued.
  repeat split; try (now subst e); try assumption.
  now exists issued.
Qed.
End Entity.

(** ** The account: [GerritAccount.set_name] *)
Section Account.
Context {server : Type}.
Implicit Types (self : GerritAccount.t server) (w : world server).
Import GerritAccount.

(** C8: when [set_name(input_)] returns, the call has made one request,
    a PUT of [input_] to the URL of /accounts/<username>/name; the value
    returned is the decoded body of the response; the [name] attribute
    holds that same value; every other attribute ([username], [email],
    [registered_on], [_account_id], and the client) is what it was. *)
Theorem set_name_effect (check : pyval -> option exn) (input_ : pyval) self w (result : pyval) :
  fst (fst (set_name check input_ self w)) = Ok result ->
  exists username response,
    attrs self !! "username" = Some username
    /\ wire (snd (set_name check input_ self w))
       = wire w ++ [RawCall (PUT (get_endpoint_url (gerrit self)
                                    ("/accounts/" +:+ py_str username +:+ "/name"))
                                 input_ (default_headers (gerrit self)))
                            (Ok response)]
    /\ decode_response (gerrit self) response = Ok result
    /\ attrs (snd (fst (set_name check input_ self w))) !! "name" = Some result
    /\ (forall attribute, attribute <> "name" ->
          attrs (snd (fst (set_name check input_ self w))) !! attribute
          = attrs self !! attribute)
    /\ gerrit (snd (fst (set_name check input_ self w))) = gerrit self.
Proof.
  unfold set_name, checked, bind, getattr, get_self, requester_put, lift, setattr, ret, raise.
  destruct (check input_) as [err |]; [simpl; discriminate |].
  destruct (attrs self !! "username") as [username |] eqn:Hname; [| simpl; discriminate].
  destruct (http_put (gerrit self)
              (get_endpoint_url (gerrit self) ("/accounts/" +:+ py_str username +:+ "/name"))
              input_ (default_headers (gerrit self)) (srv w)) as [[response | err] s1];
    [| simpl; discriminate].
  destruct (decode_response (gerrit self) response) as [decoded | err] eqn:Hdecode;
    [| simpl; discriminate].
  simpl. intros [= ->].
  exists username, response. repeat split; try assumption.
  - apply lookup_insert_eq.
  - intros attribute Hother. now apply lookup_insert_ne.
Qed.
End Account.

(** ** Worked calls on the small Gerrit *)

(** C1 at work: john.doe is in the directory and not on the change; the
    call makes the lookup, the POST and the second lookup. *)
Lemma add_absent_reviewer_witness :
  py_get john_input "reviewer" = Ok (PStr "john.doe")
  /\ fst (fst (GerritChangeReviewers.get (PStr "john.doe")
                 (GerritChangeReviewers.__init__ mock_change mock_client) mock_world))
     = Raise (ReviewerNotFoundError "Reviewer john.doe does not exist")
  /\ GerritChangeReviewers.add john_input mock_reviewers mock_world
     = GerritChangeReviewers.get (PStr "john.doe") mock_reviewers
         (posted mock_reviewers john_input (PStr "john.doe") mock_world)
  /\ wire (snd (GerritChangeReviewers.add john_input mock_reviewers mock_world))
     = [Call (GET "/changes/P~stable~I123/reviewers/john.doe") (Raise (HTTPError 404));
        Call (POST "/changes/P~stable~I123/reviewers" john_input (default_headers mock_client))
             (Ok (PDict [("input", PStr "john.doe"); ("reviewers", PList [john_record])]));
        Call (GET "/changes/P~stable~I123/reviewers/john.doe") (Ok (PList [john_record]))].
Proof.
  split; [reflexivity | split; [reflexivity |]].
  pose proof (add_absent_reviewer mock_change mock_client john_input (PStr "john.doe")
                mock_world _ eq_refl eq_refl) as H.
  cbv zeta in H. destruct H as (_ & _ & H). exact H.
Defined.

Example add_absent_reviewer_returns :
  fst (fst (GerritChangeReviewers.add john_input mock_reviewers mock_world))
  = Ok (mock_entity 1000096).
Proof. reflexivity. Qed.

(** C1 as stated fails when the server refuses the POST: nobody is not on
    the change (the first lookup raises [ReviewerNotFoundError]) and not in
    the directory either, so the POST is answered 400.  [add] raises that
    [HTTPError]; it returns no entity, and the call ends after two
    exchanges, with no further GET. *)
Lemma add_absent_reviewer_counterexample :
  py_get nobody_input "reviewer" = Ok (PStr "nobody")
  /\ fst (fst (GerritChangeReviewers.get (PStr "nobody") mock_reviewers mock_world))
     = Raise (ReviewerNotFoundError "Reviewer nobody does not exist")
  /\ fst (fst (GerritChangeReviewers.add nobody_input mock_reviewers mock_world))
     = Raise (HTTPError 400)
  /\ wire (snd (GerritChangeReviewers.add nobody_input mock_reviewers mock_world))
     = [Call (GET "/changes/P~stable~I123/reviewers/nobody") (Raise (HTTPError 404));
        Call (POST "/changes/P~stable~I123/reviewers" nobody_input (default_headers mock_client))
             (Raise (HTTPError 400))]
  /\ ~ (exists e first_answer post_answer second_answer,
           fst (fst (GerritChangeReviewers.add nobody_input mock_reviewers mock_world)) = Ok e
           /\ wire (snd (GerritChangeReviewers.add nobody_input mock_reviewers mock_world))
              = [Call (GET "/changes/P~stable~I123/reviewers/nobody") first_answer;
                 Call (POST "/changes/P~stable~I123/reviewers" nobody_input
                            (default_headers mock_client)) post_answer;
                 Call (GET "/changes/P~stable~I123/reviewers/nobody") second_answer]).
Proof.
  repeat split.
  intros (e & a1 & a2 & a3 & He & _). vm_compute in He. discriminate.
Qed.

(** C3 at work: jane.roe is on the change already. *)
Lemma add_existing_reviewer_witness :
  py_get jane_input "reviewer" = Ok (PStr "jane.roe")
  /\ fst (fst (GerritChangeReviewers.get (PStr "jane.roe") mock_reviewers mock_world))
     = Ok (mock_entity 1000097)
  /\ fst (fst (GerritChangeReviewers.add jane_input mock_reviewers mock_world))
     = Raise (ReviewerAlreadyExistsError "Reviewer jane.roe already exists")
  /\ srv (snd (GerritChangeReviewers.add jane_input mock_reviewers mock_world)) = mock_state.
Proof.
  split; [reflexivity | split; [reflexivity |]].
  pose proof (add_existing_reviewer mock_reviewers jane_input (PStr "jane.roe") mock_world
                (mock_entity 1000097) eq_refl eq_refl) as (Hraise & _ & _ & Hsrv).
  split; [exact Hraise | exact Hsrv].
Defined.

(** C5 at work: the entity [add] returns for john.doe. *)
Lemma returned_entity_was_looked_up_witness :
  fst (fst (GerritChangeReviewers.add john_input mock_reviewers mock_world))
  = Ok (mock_entity 1000096)
  /\ exists X earlier first rest,
      py_get john_input "reviewer" = Ok X
      /\ wire (snd (GerritChangeReviewers.add john_input mock_reviewers mock_world))
         = wire mock_world ++ earlier
           ++ [Call (GET (GerritChangeReviewers.endpoint mock_reviewers +:+ "/" +:+ py_str X))
                    (Ok (PList (first :: rest)))]
      /\ py_get first "_account_id" = Ok (GerritChangeReviewer.account (mock_entity 1000096))
      /\ GerritChangeReviewer.change (mock_entity 1000096)
         = GerritChangeReviewers.change mock_reviewers.
Proof.
  split; [reflexivity |].
  apply (proj2 (returned_entity_was_looked_up mock_reviewers mock_world (mock_entity 1000096))).
  reflexivity.
Defined.

(** C6 at work on the entity of jane.roe. *)
Lemma removal_requests_witness :
  fst (fst (GerritChangeReviewer.__init__ (PInt 1000097) mock_change mock_client tt mock_world))
  = Ok (mock_entity 1000097)
  /\ notify_none <> PNone
  /\ (exists answer,
         wire (snd (GerritChangeReviewer.delete PNone (mock_entity 1000097) mock_world))
         = [Call (DELETE "/changes/P~stable~I123/reviewers/1000097") answer])
  /\ (exists answer,
         wire (snd (GerritChangeReviewer.delete notify_none (mock_entity 1000097) mock_world))
         = [Call (POST "/changes/P~stable~I123/reviewers/1000097/delete" notify_none
                       (default_headers mock_client)) answer])
  /\ (exists answer,
         wire (snd (GerritChangeReviewer.delete_vote (PStr "Code-Review") PNone
                      (mock_entity 1000097) mock_world))
         = [Call (DELETE "/changes/P~stable~I123/reviewers/1000097/votes/Code-Review") answer])
  /\ (exists answer,
         wire (snd (GerritChangeReviewer.delete_vote (PStr "Code-Review") notify_none
                      (mock_entity 1000097) mock_world))
         = [Call (POST "/changes/P~stable~I123/reviewers/1000097/votes/Code-Review/delete"
                       notify_none (default_headers mock_client)) answer]).
Proof.
  assert (Hpayload : notify_none <> PNone) by discriminate.
  split; [reflexivity | split; [exact Hpayload |]].
  pose proof (removal_requests (PInt 1000097) mock_change mock_client tt mock_world
                (mock_entity 1000097) (PStr "Code-Review") notify_none mock_world eq_refl)
    as H.
  cbv zeta in H. destruct H as (H1 & H2 & H3 & H4).
  split; [exact H1 | split; [exact (H2 Hpayload) | split; [exact H3 | exact (H4 Hpayload)]]].
Defined.

(** C7 at work: an input with a state and no reviewer. *)
Lemma add_without_reviewer_field_witness :
  assoc "reviewer" [("state", PStr "CC")] = None
  /\ exists later,
      wire (snd (GerritChangeReviewers.add stateonly_input mock_reviewers mock_world))
      = Call (GET "/changes/P~stable~I123/reviewers/None") (Raise (HTTPError 404)) :: later.
Proof.
  split; [reflexivity |].
  exact (add_without_reviewer_field mock_change mock_client [("state", PStr "CC")] mock_world
           eq_refl).
Defined.

(** C7 as stated fails: the input has no [reviewer] entry, and [add] does
    not turn it down.  It asks the server for the reviewer None and, told
    there is none, posts the input; the error the caller sees is the
    server's 400 to that POST. *)
Lemma add_without_reviewer_field_counterexample :
  assoc "reviewer" [("state", PStr "CC")] = None
  /\ wire (snd (GerritChangeReviewers.add stateonly_input mock_reviewers mock_world))
     = [Call (GET "/changes/P~stable~I123/reviewers/None") (Raise (HTTPError 404));
        Call (POST "/changes/P~stable~I123/reviewers" stateonly_input
                   (default_headers mock_client))
             (Raise (HTTPError 400))]
  /\ fst (fst (GerritChangeReviewers.add stateonly_input mock_reviewers mock_world))
     = Raise (HTTPError 400)
  /\ ~ (exists err,
           fst (fst (GerritChangeReviewers.add stateonly_input mock_reviewers mock_world))
           = Raise err
           /\ wire (snd (GerritChangeReviewers.add stateonly_input mock_reviewers mock_world))
              = wire mock_world).
Proof.
  repeat split.
  intros (err & _ & Hwire). vm_compute in Hwire. discriminate.
Qed.

(** C8 at work: john.doe sets his full name. *)
Lemma set_name_effect_witness :
  fst (fst (GerritAccount.set_name mock_check (PDict [("name", PStr "John F. Doe")])
              mock_account mock_world))
  = Ok (PStr "John F. Doe")
  /\ GerritAccount.attrs
       (snd (fst (GerritAccount.set_name mock_check (PDict [("name", PStr "John F. Doe")])
                    mock_account mock_world))) !! "name"
     = Some (PStr "John F. Doe")
  /\ GerritAccount.attrs
       (snd (fst (GerritAccount.set_name mock_check (PDict [("name", PStr "John F. Doe")])
                    mock_account mock_world))) !! "email"
     = GerritAccount.attrs mock_account !! "email".
Proof.
  assert (Hreturns :
            fst (fst (GerritAccount.set_name mock_check (PDict [("name", PStr "John F. Doe")])
                        mock_account mock_world))
            = Ok (PStr "John F. Doe")) by (vm_compute; reflexivity).
  split; [exact Hreturns |].
  destruct (set_name_effect mock_check (PDict [("name", PStr "John F. Doe")])
              mock_account mock_world (PStr "John F. Doe") Hreturns)
    as (username & response & _ & _ & _ & Hname & Hframe & _).
  split; [exact Hname | apply Hframe; discriminate].
Defined.

(** C10 at work: three calls on the entity of jane.roe. *)
Lemma entity_identity_preserved_witness :
  fst (fst (GerritChangeReviewer.__init__ (PInt 1000097) mock_change mock_client tt mock_world))
  = Ok (mock_entity 1000097)
  /\ fst (perform_all [ListVotes; DeleteVote (PStr "Code-Review") PNone; Delete notify_none]
                      (mock_entity 1000097) mock_world)
     = mock_entity 1000097.
Proof.
  split; [reflexivity |].
  apply (entity_identity_preserved (PInt 1000097) mock_change mock_client tt mock_world
           (mock_entity 1000097)
           [ListVotes; DeleteVote (PStr "Code-Review") PNone; Delete notify_none]
           mock_world eq_refl).
Defined.

Example entity_requests :
  map sent_of
      (wire (snd (perform_all
                    [ListVotes; DeleteVote (PStr "Code-Review") PNone; Delete notify_none]
                    (mock_entity 1000097) mock_world)))
  = [GET "/changes/P~stable~I123/reviewers/1000097/votes/";
     DELETE "/changes/P~stable~I123/reviewers/1000097/votes/Code-Review";
     POST "/changes/P~stable~I123/reviewers/1000097/delete" notify_none
          (default_headers mock_client)].
Proof. reflexivity. Qed.

(** * Further properties *)

(** ** Lookups: what else [get] does *)
Section LookupMore.
Context {server : Type}.
Implicit Types (self : GerritChangeReviewers.t server) (w : world server).
Import GerritChangeReviewers.

(** The outcome of a lookup depends on the world through the server's
    state alone. *)
Lemma get_outcome_srv self account w1 w2 :
  srv w1 = srv w2 ->
  fst (fst (get account self w1)) = fst (fst (get account self w2)).
Proof.
  intros Hsrv.
  destruct (answered_cases self account w1) as [body H | status_code H | kind H];
    pose proof H as H2; rewrite Hsrv in H2.
  - now rewrite (get_body _ _ _ _ H), (get_body _ _ _ _ H2);
      destruct (py_getitem_0 body) as [first |]; [destruct (py_get first "_account_id") |].
  - now rewrite (get_http_error _ _ _ _ H), (get_http_error _ _ _ _ H2);
      destruct (not_found_status status_code).
  - now rewrite (get_unreachable _ _ _ _ H), (get_unreachable _ _ _ _ H2).
Qed.

(** X1: [get] writes to the error log exactly when it raises
    [ReviewerNotFoundError], and then one line, the message of the error;
    a lookup that returns, or fails in any other way, logs nothing. *)
Theorem get_error_log self account w :
  errlog (snd (get account self w))
  = match fst (fst (get account self w)) with
    | Raise (ReviewerNotFoundError message) => errlog w ++ [message]
    | _ => errlog w
    end.
Proof.
  destruct (answered_cases self account w) as [body H | status_code H | kind H].
  - rewrite (get_body _ _ _ _ H).
    destruct body as [| b | z | s | [| first items] | entries]; simpl; try reflexivity.
    + destruct s; reflexivity.
    + destruct first; reflexivity.
  - rewrite (get_http_error _ _ _ _ H). now destruct (not_found_status status_code).
  - now rewrite (get_unreachable _ _ _ _ H).
Qed.

(** X10: when the first record of the answer is an object without an
    [_account_id] entry, [get] does not fail: it returns an entity whose
    account is [None], and whose endpoint is
    /changes/<change>/reviewers/None. *)
Theorem get_record_without_account_id self account w entries rest :
  http_get (gerrit self) (lookup_of self account) (srv w)
  = Replied (PList (PDict entries :: rest)) ->
  assoc "_account_id" entries = None ->
  exists e,
    fst (fst (get account self w)) = Ok e
    /\ GerritChangeReviewer.account e = PNone
    /\ GerritChangeReviewer.endpoint e
       = "/changes/" +:+ py_str (change self) +:+ "/reviewers/None".
Proof.
  intros H Hmissing. rewrite (get_body _ _ _ _ H). simpl. rewrite Hmissing. simpl.
  eexists. repeat split.
Qed.

(** X11: a 2xx body of the wrong shape makes [get] raise the error of the
    step that trips over it, uncaught: [KeyError] for an object,
    [TypeError] for null, a boolean or a number, [AttributeError] for a
    list whose first element is not an object. *)
Theorem get_malformed_body self account w body :
  http_get (gerrit self) (lookup_of self account) (srv w) = Replied body ->
  (forall entries, body = PDict entries -> fst (fst (get account self w)) = Raise KeyError)
  /\ (body = PNone \/ (exists b, body = PBool b) \/ (exists z, body = PInt z) ->
      fst (fst (get account self w)) = Raise TypeError)
  /\ (forall first rest,
         body = PList (first :: rest) ->
         (forall entries, first <> PDict entries) ->
         fst (fst (get account self w)) = Raise AttributeError).
Proof.
  intros H. rewrite (get_body _ _ _ _ H). repeat split.
  - now intros entries ->.
  - now intros [-> | [[b ->] | [z ->]]].
  - intros first rest -> Hshape. simpl.
    destruct first; try reflexivity. now destruct (Hshape entries).
Qed.

(** X9: the entity a lookup returns is addressed by the account id the
    server sent, not by the identifier the caller looked up, and by the
    change of the collection: whenever it is used, its [delete()] goes to
    /changes/<change>/reviewers/<_account_id>. *)
Theorem get_then_delete self account w e (w' : world server) :
  fst (fst (get account self w)) = Ok e ->
  exists first rest answer,
    http_get (gerrit self) (lookup_of self account) (srv w) = Replied (PList (first :: rest))
    /\ py_get first "_account_id" = Ok (GerritChangeReviewer.account e)
    /\ wire (snd (GerritChangeReviewer.delete PNone e w'))
       = wire w' ++ [Call (DELETE ("/changes/" +:+ py_str (change self) +:+ "/reviewers/"
                                   +:+ py_str (GerritChangeReviewer.account e))) answer].
Proof.
  intros He.
  destruct (get_ok_inv _ _ _ _ He) as (first & rest & Hans & Hid & Hch & Hg & Hep).
  exists first, rest.
  unfold GerritChangeReviewer.delete, bind, get_self, ret, gerrit_delete. simpl.
  rewrite Hep.
  destruct (http_delete (GerritChangeReviewer.gerrit e) _ (srv w')) as [r s1].
  destruct r; simpl; eauto.
Qed.
End LookupMore.

(** ** Adding: what else [add] does *)
Section AddMore.
Context {server : Type}.
Implicit Types (self : GerritChangeReviewers.t server) (w : world server).
Import GerritChangeReviewers.

(** X2: an input that is not a dict has no [get] method: [add] raises
    [AttributeError] at once, with no request made and nothing logged. *)
Theorem add_non_dict_input self input_ w :
  (forall entries, input_ <> PDict entries) ->
  add input_ self w = (Raise AttributeError, self, w).
Proof.
  intros Hshape. apply add_bad_input.
  destruct input_; try reflexivity. now destruct (Hshape entries).
Qed.

(** [add] when the first lookup raises anything else: what is left
    behind. *)
Lemma add_lookup_error_world self input_ X w err :
  py_get input_ "reviewer" = Ok X ->
  fst (fst (get X self w)) = Raise err ->
  (forall message, err <> ReviewerNotFoundError message) ->
  wire (snd (add input_ self w))
  = wire w ++ [Call (GET (endpoint self +:+ "/" +:+ py_str X))
                    (raise_for_status
                       (http_get (gerrit self) (endpoint self +:+ "/" +:+ py_str X) (srv w)))]
  /\ srv (snd (add input_ self w)) = srv w.
Proof.
  intros HX Herr Hother.
  destruct (get_wire self X w) as (Hw & Hs & _).
  unfold add, bind, lift, try_except. rewrite HX.
  destruct (get X self w) as [[r self1] w1]. simpl in Herr, Hw, Hs. subst r.
  destruct err; simpl; try (split; assumption).
  now destruct (Hother message).
Qed.

(** X3: when the first lookup fails otherwise than with
    [ReviewerNotFoundError] (a status other than 404 and 400, no response
    at all, a malformed body), [add] raises that same error; the lookup is
    the only request of the call, and the server is as it was. *)
Theorem add_lookup_failure self input_ X w err :
  py_get input_ "reviewer" = Ok X ->
  fst (fst (get X self w)) = Raise err ->
  (forall message, err <> ReviewerNotFoundError message) ->
  fst (fst (add input_ self w)) = Raise err
  /\ wire (snd (add input_ self w))
     = wire w ++ [Call (GET (endpoint self +:+ "/" +:+ py_str X))
                       (raise_for_status
                          (http_get (gerrit self) (endpoint self +:+ "/" +:+ py_str X) (srv w)))]
  /\ srv (snd (add input_ self w)) = srv w.
Proof.
  intros HX Herr Hother.
  split; [now apply (add_lookup_error _ _ _ _ _ HX Herr) |].
  now apply (add_lookup_error_world _ _ _ _ _ HX Herr).
Qed.

(** The one way [add] returns: not-found, a POST that went through, and
    the second lookup. *)
Lemma add_ok_inv self input_ X w e :
  py_get input_ "reviewer" = Ok X ->
  fst (fst (add input_ self w)) = Ok e ->
  (exists body, fst (post_of self input_ w) = Replied body)
  /\ fst (fst (get X self (posted self input_ X w))) = Ok e
  /\ add input_ self w
     = (Ok e, self, looked_up self X (posted self input_ X w)).
Proof.
  intros HX He.
  destruct (fst (fst (get X self w))) as [e0 | err] eqn:Hfirst.
  { rewrite (add_found _ _ _ _ _ HX Hfirst) in He. discriminate. }
  assert (Hnf : exists message, err = ReviewerNotFoundError message).
  { destruct err; eauto;
      rewrite (add_lookup_error _ _ _ _ _ HX Hfirst) in He;
      try discriminate; intros ? ?; discriminate. }
  destruct Hnf as [message ->].
  rewrite (add_not_found _ _ _ _ _ HX Hfirst) in He |- *.
  destruct (fst (post_of self input_ w)) as [body | |]; try discriminate.
  split; [now exists body |]. split; [exact He |].
  now apply get_ok_world.
Qed.

(** The lookup that follows an [add] that returned. *)
Lemma get_after_add self input_ X w e :
  py_get input_ "reviewer" = Ok X ->
  fst (fst (add input_ self w)) = Ok e ->
  fst (fst (get X self (snd (add input_ self w)))) = Ok e.
Proof.
  intros HX He.
  destruct (add_ok_inv _ _ _ _ _ HX He) as (_ & Hsecond & Hadd).
  rewrite Hadd. simpl.
  now rewrite (get_outcome_srv self X _ (posted self input_ X w)).
Qed.

(** X4: after [add] has returned an entity, looking the same reviewer up
    gives that entity again. *)
Theorem add_then_get self input_ X w e :
  py_get input_ "reviewer" = Ok X ->
  fst (fst (add input_ self w)) = Ok e ->
  fst (fst (get X self (snd (add input_ self w)))) = Ok e.
Proof. exact (get_after_add self input_ X w e). Qed.

(** X5: adding is not idempotent.  When [add] has returned, the same
    [add] again raises [ReviewerAlreadyExistsError]; this second call makes
    one request, a GET, and leaves the server as the first call left it. *)
Theorem add_twice self input_ X w e :
  py_get input_ "reviewer" = Ok X ->
  fst (fst (add input_ self w)) = Ok e ->
  fst (fst (add input_ self (snd (add input_ self w))))
  = Raise (ReviewerAlreadyExistsError ("Reviewer " +:+ py_str X +:+ " already exists"))
  /\ (exists answer,
         wire (snd (add input_ self (snd (add input_ self w))))
         = wire (snd (add input_ self w))
           ++ [Call (GET (endpoint self +:+ "/" +:+ py_str X)) answer])
  /\ srv (snd (add input_ self (snd (add input_ self w)))) = srv (snd (add input_ self w)).
Proof.
  intros HX He.
  pose proof (get_after_add _ _ _ _ _ HX He) as Hagain.
  rewrite (add_found _ _ _ _ _ HX Hagain). simpl.
  repeat split. eexists. reflexivity.
Qed.

(** X6: an [add] that returns has written one line to the error log,
    "Reviewer <X> does not exist", from its first lookup. *)
Theorem add_success_log self input_ X w e :
  py_get input_ "reviewer" = Ok X ->
  fst (fst (add input_ self w)) = Ok e ->
  errlog (snd (add input_ self w))
  = errlog w ++ ["Reviewer " +:+ py_str X +:+ " does not exist"].
Proof.
  intros HX He.
  destruct (add_ok_inv _ _ _ _ _ HX He) as (_ & _ & Hadd).
  now rewrite Hadd.
Qed.

(** X7: an [add] on a dict makes one, two or three requests and no more,
    in this order: the lookup GET, the POST of the input to the
    collection's endpoint, the lookup GET again. *)
Theorem add_exchanges self input_ X w :
  py_get input_ "reviewer" = Ok X ->
  exists issued,
    wire (snd (add input_ self w)) = wire w ++ issued
    /\ (map sent_of issued = [GET (endpoint self +:+ "/" +:+ py_str X)]
        \/ map sent_of issued
           = [GET (endpoint self +:+ "/" +:+ py_str X);
              POST (endpoint self) input_ (default_headers (gerrit self))]
        \/ map sent_of issued
           = [GET (endpoint self +:+ "/" +:+ py_str X);
              POST (endpoint self) input_ (default_headers (gerrit self));
              GET (endpoint self +:+ "/" +:+ py_str X)]).
Proof.
  intros HX.
  destruct (fst (fst (get X self w))) as [e0 | err] eqn:Hfirst.
  { rewrite (add_found _ _ _ _ _ HX Hfirst). simpl. eexists. split; [reflexivity |]. now left. }
  assert (Hnf : (exists message, err = ReviewerNotFoundError message)
                \/ (forall message, err <> ReviewerNotFoundError message)).
  { destruct err; eauto; right; intros ? ?; discriminate. }
  destruct Hnf as [[message ->] | Hother].
  - rewrite (add_not_found _ _ _ _ _ HX Hfirst).
    destruct (fst (post_of self input_ w)).
    + destruct (get_wire self X (posted self input_ X w)) as (Hw & _ & _).
      rewrite Hw. unfold looked_up, record_exchange, posted. simpl.
      rewrite <- app_assoc. eexists. split; [reflexivity |]. now right; right.
    + simpl. eexists. split; [reflexivity |]. now right; left.
    + simpl. eexists. split; [reflexivity |]. now right; left.
  - destruct (add_lookup_error_world _ _ _ _ _ HX Hfirst Hother) as (Hw & _).
    rewrite Hw. eexists. split; [reflexivity |]. now left.
Qed.

(** X8: [add] is not undone when it fails late.  Once the first lookup
    has reported not-found, the server ends in the state the POST left it
    in, whether [add] then returns or raises. *)
Theorem add_keeps_post_effect self input_ X w message :
  py_get input_ "reviewer" = Ok X ->
  fst (fst (get X self w)) = Raise (ReviewerNotFoundError message) ->
  srv (snd (add input_ self w))
  = snd (http_post (gerrit self) (endpoint self) input_ (default_headers (gerrit self))
                   (srv w)).
Proof.
  intros HX Hnf. rewrite (add_not_found _ _ _ _ _ HX Hnf).
  destruct (fst (post_of self input_ w)); try reflexivity.
  destruct (get_wire self X (posted self input_ X w)) as (_ & Hs & _).
  now rewrite Hs.
Qed.
End AddMore.

(** ** The account: what else its methods do *)
Section AccountMore.
Context {server : Type}.
Implicit Types (self : GerritAccount.t server) (w : world server).
Import GerritAccount GerritAccountMethods.

(** X12: [set_name] assigns [name] last.  When the call raises, whether
    from the argument check, a missing [username], the transport or the
    decoding of an error response, the model is what it was. *)
Theorem set_name_failure (check : pyval -> option exn) (input_ : pyval) self w err :
  fst (fst (set_name check input_ self w)) = Raise err ->
  snd (fst (set_name check input_ self w)) = self.
Proof.
  unfold set_name, checked, bind, getattr, get_self, requester_put, lift, setattr, ret, raise.
  destruct (check input_) as [e0 |]; [reflexivity |].
  destruct (attrs self !! "username") as [username |]; [| reflexivity].
  destruct (http_put (gerrit self)
              (get_endpoint_url (gerrit self) ("/accounts/" +:+ py_str username +:+ "/name"))
              input_ (default_headers (gerrit self)) (srv w)) as [[response | e1] s1];
    [| reflexivity].
  destruct (decode_response (gerrit self) response); [simpl; discriminate | reflexivity].
Qed.

(** X14: [delete_name] sends one DELETE to the URL of
    /accounts/<username>/name.  When it returns, [name] is there and is
    [None], and every other attribute is what it was; when it raises, for
    one because the response has an error status, the model is what it
    was and [name] is kept. *)
Theorem delete_name_effect (rq : Requester server) self w (username : pyval) :
  attrs self !! "username" = Some username ->
  (exists answer,
      wire (snd (delete_name rq self w))
      = wire w ++ [RawCall (DELETE (get_endpoint_url (gerrit self)
                                      ("/accounts/" +:+ py_str username +:+ "/name")))
                           answer])
  /\ match fst (fst (delete_name rq self w)) with
     | Ok _ =>
         attrs (snd (fst (delete_name rq self w))) !! "name" = Some PNone
         /\ (forall attribute, attribute <> "name" ->
               attrs (snd (fst (delete_name rq self w))) !! attribute
               = attrs self !! attribute)
     | Raise _ => snd (fst (delete_name rq self w)) = self
     end.
Proof.
  intros Hname.
  unfold delete_name, bind, getattr, get_self, requester_delete, lift, setattr, ret.
  rewrite Hname.
  destruct (http_delete_raw rq
              (get_endpoint_url (gerrit self) ("/accounts/" +:+ py_str username +:+ "/name"))
              (srv w)) as [[response | e1] s1]; simpl.
  - destruct (response_raise_for_status rq response); simpl.
    + split; [eexists; reflexivity |]. split.
      * apply lookup_insert_eq.
      * intros attribute Hother. now apply lookup_insert_ne.
    + split; [eexists; reflexivity | reflexivity].
  - split; [eexists; reflexivity | reflexivity].
Qed.

(** [set_username] when it returns. *)
Lemma set_username_ok (check : pyval -> option exn) (input_ : pyval) self w (result : pyval) :
  fst (fst (set_username check input_ self w)) = Ok result ->
  snd (fst (set_username check input_ self w))
  = {| attrs := <["username" := result]> (attrs self); gerrit := gerrit self |}.
Proof.
  unfold set_username, checked, bind, getattr, get_self, requester_put, lift, setattr, ret, raise.
  destruct (check input_) as [e0 |]; [simpl; discriminate |].
  destruct (attrs self !! "username") as [username |]; [| simpl; discriminate].
  destruct (http_put (gerrit self)
              (get_endpoint_url (gerrit self) ("/accounts/" +:+ py_str username +:+ "/username"))
              input_ (default_headers (gerrit self)) (srv w)) as [[response | e1] s1];
    [| simpl; discriminate].
  destruct (decode_response (gerrit self) response); simpl; [| discriminate].
  now intros [= ->].
Qed.

(** [set_name] once past the check, on a model with a username: its one
    request. *)
Lemma set_name_request (check : pyval -> option exn) (input_ : pyval) self w
      (username : pyval) :
  check input_ = None ->
  attrs self !! "username" = Some username ->
  exists answer,
    wire (snd (set_name check input_ self w))
    = wire w ++ [RawCall (PUT (get_endpoint_url (gerrit self)
                                 ("/accounts/" +:+ py_str username +:+ "/name"))
                              input_ (default_headers (gerrit self)))
                         answer].
Proof.
  intros Hcheck Hname.
  unfold set_name, checked, bind, getattr, get_self, requester_put, lift, setattr, ret.
  rewrite Hcheck, Hname.
  destruct (http_put (gerrit self)
              (get_endpoint_url (gerrit self) ("/accounts/" +:+ py_str username +:+ "/name"))
              input_ (default_headers (gerrit self)) (srv w)) as [[response | e1] s1];
    simpl; [| eexists; reflexivity].
  destruct (decode_response (gerrit self) response); simpl; eexists; reflexivity.
Qed.

(** X15: the model follows a rename.  After [set_username] has returned
    [result], a [set_name] on the same model sends its PUT to the URL of
    /accounts/<result>/name, the new username, whatever the old one was. *)
Theorem set_username_then_set_name (check : pyval -> option exn) (renaming naming : pyval)
        self w (result : pyval) :
  fst (fst (set_username check renaming self w)) = Ok result ->
  check naming = None ->
  exists answer,
    wire (snd (set_name check naming
                 (snd (fst (set_username check renaming self w)))
                 (snd (set_username check renaming self w))))
    = wire (snd (set_username check renaming self w))
      ++ [RawCall (PUT (get_endpoint_url (gerrit self)
                          ("/accounts/" +:+ py_str result +:+ "/name"))
                       naming (default_headers (gerrit self)))
                  answer].
Proof.
  intros Hrename Hcheck. rewrite (set_username_ok _ _ _ _ _ Hrename).
  apply (set_name_request check naming
           {| attrs := <["username" := result]> (attrs self); gerrit := gerrit self |}
           _ result Hcheck).
  apply lookup_insert_eq.
Qed.

(** X16: when [set_username] returns, [username] holds the value returned
    and every other attribute, [name] among them, is what it was; when it
    raises, the model is what it was. *)
Theorem set_username_effect (check : pyval -> option exn) (input_ : pyval) self w :
  match fst (fst (set_username check input_ self w)) with
  | Ok result =>
      attrs (snd (fst (set_username check input_ self w))) !! "username" = Some result
      /\ (forall attribute, attribute <> "username" ->
            attrs (snd (fst (set_username check input_ self w))) !! attribute
            = attrs self !! attribute)
      /\ gerrit (snd (fst (set_username check input_ self w))) = gerrit self
  | Raise _ => snd (fst (set_username check input_ self w)) = self
  end.
Proof.
  destruct (fst (fst (set_username check input_ self w))) as [result | err] eqn:Hout.
  - rewrite (set_username_ok _ _ _ _ _ Hout). simpl. repeat split.
    + apply lookup_insert_eq.
    + intros attribute Hother. now apply lookup_insert_ne.
  - revert Hout.
    unfold set_username, checked, bind, getattr, get_self, requester_put, lift, setattr, ret,
           raise.
    destruct (check input_) as [e0 |]; [reflexivity |].
    destruct (attrs self !! "username") as [username |]; [| reflexivity].
    destruct (http_put (gerrit self)
                (get_endpoint_url (gerrit self)
                   ("/accounts/" +:+ py_str username +:+ "/username"))
                input_ (default_headers (gerrit self)) (srv w)) as [[response | e1] s1];
      [| reflexivity].
    destruct (decode_response (gerrit self) response); [simpl; discriminate | reflexivity].
Qed.
End AccountMore.

(** ** Further worked calls on the small Gerrit *)

Example get_error_log_broken :
  errlog (snd (GerritChangeReviewers.get (PStr "broken") mock_reviewers mock_world)) = []
  /\ errlog (snd (GerritChangeReviewers.get (PStr "nobody") mock_reviewers mock_world))
     = ["Reviewer nobody does not exist"].
Proof. split; reflexivity. Qed.

(** X2 at work: a caller passes the username itself instead of a dict. *)
Lemma add_non_dict_input_witness :
  (forall entries, PStr "john.doe" <> PDict entries)
  /\ GerritChangeReviewers.add (PStr "john.doe") mock_reviewers mock_world
     = (Raise AttributeError, mock_reviewers, mock_world).
Proof.
  assert (Hshape : forall entries, PStr "john.doe" <> PDict entries) by discriminate.
  split; [exact Hshape |].
  exact (add_non_dict_input mock_reviewers (PStr "john.doe") mock_world Hshape).
Defined.

(** X3 at work: the lookup of broken is answered 500. *)
Lemma add_lookup_failure_witness :
  py_get (PDict [("reviewer", PStr "broken")]) "reviewer" = Ok (PStr "broken")
  /\ fst (fst (GerritChangeReviewers.get (PStr "broken") mock_reviewers mock_world))
     = Raise (GerritAPIException (HTTPError 500))
  /\ fst (fst (GerritChangeReviewers.add (PDict [("reviewer", PStr "broken")])
                 mock_reviewers mock_world))
     = Raise (GerritAPIException (HTTPError 500))
  /\ wire (snd (GerritChangeReviewers.add (PDict [("reviewer", PStr "broken")])
                  mock_reviewers mock_world))
     = [Call (GET "/changes/P~stable~I123/reviewers/broken") (Raise (HTTPError 500))]
  /\ srv (snd (GerritChangeReviewers.add (PDict [("reviewer", PStr "broken")])
                 mock_reviewers mock_world))
     = mock_state.
Proof.
  assert (Hother : forall message,
             GerritAPIException (HTTPError 500) <> ReviewerNotFoundError message)
    by discriminate.
  split; [reflexivity | split; [reflexivity |]].
  exact (add_lookup_failure mock_reviewers (PDict [("reviewer", PStr "broken")])
           (PStr "broken") mock_world (GerritAPIException (HTTPError 500))
           eq_refl eq_refl Hother).
Defined.

(** X4 at work: john.doe, once added, is found. *)
Lemma add_then_get_witness :
  py_get john_input "reviewer" = Ok (PStr "john.doe")
  /\ fst (fst (GerritChangeReviewers.add john_input mock_reviewers mock_world))
     = Ok (mock_entity 1000096)
  /\ fst (fst (GerritChangeReviewers.get (PStr "john.doe") mock_reviewers
                 (snd (GerritChangeReviewers.add john_input mock_reviewers mock_world))))
     = Ok (mock_entity 1000096).
Proof.
  split; [reflexivity | split; [reflexivity |]].
  exact (add_then_get mock_reviewers john_input (PStr "john.doe") mock_world
           (mock_entity 1000096) eq_refl eq_refl).
Defined.

(** X5 at work: john.doe added twice. *)
Lemma add_twice_witness :
  py_get john_input "reviewer" = Ok (PStr "john.doe")
  /\ fst (fst (GerritChangeReviewers.add john_input mock_reviewers mock_world))
     = Ok (mock_entity 1000096)
  /\ fst (fst (GerritChangeReviewers.add john_input mock_reviewers
                 (snd (GerritChangeReviewers.add john_input mock_reviewers mock_world))))
     = Raise (ReviewerAlreadyExistsError "Reviewer john.doe already exists").
Proof.
  split; [reflexivity | split; [reflexivity |]].
  exact (proj1 (add_twice mock_reviewers john_input (PStr "john.doe") mock_world
                  (mock_entity 1000096) eq_refl eq_refl)).
Defined.

(** X6 at work: the error line a successful add leaves. *)
Lemma add_success_log_witness :
  py_get john_input "reviewer" = Ok (PStr "john.doe")
  /\ fst (fst (GerritChangeReviewers.add john_input mock_reviewers mock_world))
     = Ok (mock_entity 1000096)
  /\ errlog (snd (GerritChangeReviewers.add john_input mock_reviewers mock_world))
     = ["Reviewer john.doe does not exist"].
Proof.
  split; [reflexivity | split; [reflexivity |]].
  exact (add_success_log mock_reviewers john_input (PStr "john.doe") mock_world
           (mock_entity 1000096) eq_refl eq_refl).
Defined.

(** X7 at work: the requests of the add of nobody, which the POST ends. *)
Lemma add_exchanges_witness :
  py_get nobody_input "reviewer" = Ok (PStr "nobody")
  /\ exists issued,
      wire (snd (GerritChangeReviewers.add nobody_input mock_reviewers mock_world))
      = wire mock_world ++ issued
      /\ (map sent_of issued
          = [GET (GerritChangeReviewers.endpoint mock_reviewers +:+ "/" +:+ "nobody")]
          \/ map sent_of issued
             = [GET (GerritChangeReviewers.endpoint mock_reviewers +:+ "/" +:+ "nobody");
                POST (GerritChangeReviewers.endpoint mock_reviewers) nobody_input
                     (default_headers mock_client)]
          \/ map sent_of issued
             = [GET (GerritChangeReviewers.endpoint mock_reviewers +:+ "/" +:+ "nobody");
                POST (GerritChangeReviewers.endpoint mock_reviewers) nobody_input
                     (default_headers mock_client);
                GET (GerritChangeReviewers.endpoint mock_reviewers +:+ "/" +:+ "nobody")]).
Proof.
  split; [reflexivity |].
  exact (add_exchanges mock_reviewers nobody_input (PStr "nobody") mock_world eq_refl).
Defined.

(** X8 at work: after the add of john.doe the server has his lookup in
    its table, as the POST put it there. *)
Lemma add_keeps_post_effect_witness :
  py_get john_input "reviewer" = Ok (PStr "john.doe")
  /\ fst (fst (GerritChangeReviewers.get (PStr "john.doe") mock_reviewers mock_world))
     = Raise (ReviewerNotFoundError "Reviewer john.doe does not exist")
  /\ srv (snd (GerritChangeReviewers.add john_input mock_reviewers mock_world))
     = {| canned := ("/changes/P~stable~I123/reviewers/john.doe", Replied (PList [john_record]))
                    :: canned mock_state;
          directory := directory mock_state |}.
Proof.
  split; [reflexivity | split; [reflexivity |]].
  exact (add_keeps_post_effect mock_reviewers john_input (PStr "john.doe") mock_world _
           eq_refl eq_refl).
Defined.

(** X9 at work: jane.roe is looked up by name and removed by number. *)
Lemma get_then_delete_witness :
  fst (fst (GerritChangeReviewers.get (PStr "jane.roe") mock_reviewers mock_world))
  = Ok (mock_entity 1000097)
  /\ exists first rest answer,
      http_get (GerritChangeReviewers.gerrit mock_reviewers)
               (lookup_of mock_reviewers (PStr "jane.roe")) (srv mock_world)
      = Replied (PList (first :: rest))
      /\ py_get first "_account_id" = Ok (PInt 1000097)
      /\ wire (snd (GerritChangeReviewer.delete PNone (mock_entity 1000097) mock_world))
         = [Call (DELETE "/changes/P~stable~I123/reviewers/1000097") answer].
Proof.
  split; [reflexivity |].
  exact (get_then_delete mock_reviewers (PStr "jane.roe") mock_world (mock_entity 1000097)
           mock_world eq_refl).
Defined.

(** X10 at work: a group is on the change, and its record has no account
    id. *)
Lemma get_record_without_account_id_witness :
  http_get (GerritChangeReviewers.gerrit mock_reviewers)
           (lookup_of mock_reviewers (PStr "group-x")) (srv anonymous_world)
  = Replied (PList [PDict [("name", PStr "Group X")]])
  /\ assoc "_account_id" [("name", PStr "Group X")] = None
  /\ exists e,
      fst (fst (GerritChangeReviewers.get (PStr "group-x") mock_reviewers anonymous_world))
      = Ok e
      /\ GerritChangeReviewer.account e = PNone
      /\ GerritChangeReviewer.endpoint e = "/changes/P~stable~I123/reviewers/None".
Proof.
  split; [reflexivity | split; [reflexivity |]].
  exact (get_record_without_account_id mock_reviewers (PStr "group-x") anonymous_world
           [("name", PStr "Group X")] [] eq_refl eq_refl).
Defined.

(** X11 at work: the server answers with the record itself, not a list. *)
Lemma get_malformed_body_witness :
  http_get (GerritChangeReviewers.gerrit mock_reviewers)
           (lookup_of mock_reviewers (PStr "object")) (srv anonymous_world)
  = Replied (PDict [("_account_id", PInt 7)])
  /\ fst (fst (GerritChangeReviewers.get (PStr "object") mock_reviewers anonymous_world))
     = Raise KeyError.
Proof.
  split; [reflexivity |].
  exact (proj1 (get_malformed_body mock_reviewers (PStr "object") anonymous_world
                  (PDict [("_account_id", PInt 7)]) eq_refl)
           [("_account_id", PInt 7)] eq_refl).
Defined.

Example get_malformed_bodies :
  fst (fst (GerritChangeReviewers.get (PStr "null") mock_reviewers anonymous_world))
  = Raise TypeError
  /\ fst (fst (GerritChangeReviewers.get (PStr "ids") mock_reviewers anonymous_world))
     = Raise AttributeError
  /\ fst (fst (GerritChangeReviewers.get (PStr "down") mock_reviewers anonymous_world))
     = Raise (RequestException "ConnectionError").
Proof. repeat split. Qed.

(** X12 at work: an input without a name is answered 400, and John stays
    John. *)
Lemma set_name_failure_witness :
  fst (fst (GerritAccount.set_name mock_check (PDict []) mock_account mock_world))
  = Raise (HTTPError 400)
  /\ snd (fst (GerritAccount.set_name mock_check (PDict []) mock_account mock_world))
     = mock_account.
Proof.
  assert (Hraises :
            fst (fst (GerritAccount.set_name mock_check (PDict []) mock_account mock_world))
            = Raise (HTTPError 400)) by (vm_compute; reflexivity).
  split; [exact Hraises |].
  exact (set_name_failure mock_check (PDict []) mock_account mock_world _ Hraises).
Defined.

(** X14 at work: the realm of jane.roe does not let go of names (405). *)
Lemma delete_name_effect_witness :
  GerritAccount.attrs realm_account !! "username" = Some (PStr "jane.roe")
  /\ fst (fst (GerritAccountMethods.delete_name mock_requester realm_account mock_world))
     = Raise (HTTPError 405)
  /\ snd (fst (GerritAccountMethods.delete_name mock_requester realm_account mock_world))
     = realm_account.
Proof.
  assert (Hname : GerritAccount.attrs realm_account !! "username" = Some (PStr "jane.roe"))
    by (vm_compute; reflexivity).
  assert (Hraises :
            fst (fst (GerritAccountMethods.delete_name mock_requester realm_account
                        mock_world))
            = Raise (HTTPError 405)) by (vm_compute; reflexivity).
  split; [exact Hname | split; [exact Hraises |]].
  destruct (delete_name_effect mock_requester realm_account mock_world
              (PStr "jane.roe") Hname) as [_ H].
  vm_compute in H. exact H.
Defined.

Example delete_name_accepted :
  GerritAccount.attrs
    (snd (fst (GerritAccountMethods.delete_name mock_requester mock_account mock_world)))
    !! "name"
  = Some PNone.
Proof. vm_compute. reflexivity. Qed.

(** X15 at work: john.doe becomes jdoe, and his name is then set under
    /accounts/jdoe. *)
Lemma set_username_then_set_name_witness :
  fst (fst (GerritAccountMethods.set_username mock_check (PDict [("username", PStr "jdoe")])
              rename_account mock_world))
  = Ok (PStr "jdoe")
  /\ mock_check (PDict [("name", PStr "J. Doe")]) = None
  /\ exists answer,
      wire (snd (GerritAccount.set_name mock_check (PDict [("name", PStr "J. Doe")])
                   (snd (fst (GerritAccountMethods.set_username mock_check
                                (PDict [("username", PStr "jdoe")]) rename_account
                                mock_world)))
                   (snd (GerritAccountMethods.set_username mock_check
                           (PDict [("username", PStr "jdoe")]) rename_account mock_world))))
      = wire (snd (GerritAccountMethods.set_username mock_check
                     (PDict [("username", PStr "jdoe")]) rename_account mock_world))
        ++ [RawCall (PUT "https://gerrit.example.com/a/accounts/jdoe/name"
                         (PDict [("name", PStr "J. Doe")]) (default_headers mock_client))
                    answer].
Proof.
  assert (Hrename :
            fst (fst (GerritAccountMethods.set_username mock_check
                        (PDict [("username", PStr "jdoe")]) rename_account mock_world))
            = Ok (PStr "jdoe")) by (vm_compute; reflexivity).
  split; [exact Hrename | split; [reflexivity |]].
  exact (set_username_then_set_name mock_check (PDict [("username", PStr "jdoe")])
           (PDict [("name", PStr "J. Doe")]) rename_account mock_world (PStr "jdoe")
           Hrename eq_refl).
Defined.
